(** * Airkeeper: the beacon update cycle, embedded and checked

    A shallow embedding of the keeper's handlers:
    - [src/psp.ts]            ([beaconUpdate], the monolithic PSP handler),
    - [src/handlers/rrp.ts]   ([handler], the RRP keeper),
    - the earlier RRP keeper  (one [handler] with the API call inside the loop),
    - the phased PSP handler  ([initializeState], [executeApiCalls],
      [initializeProviders], [submitTransactions]),
    - [getSponsorWalletAndTransactionCount].

    Chain clients, the HTTP adapter and the wallet library are outside the
    repository: every call that leaves the process is answered by an
    environment record of oracles, and the handlers are pure functions of the
    configuration and that environment.  What a handler does to the outside
    world is recorded as a trace of events. *)

From Stdlib Require Import ZArith NArith QArith Lia List String Ascii Bool.
From Stdlib.Strings Require Import Byte.
From Stdlib Require Import DecimalString.
From stdpp Require Import base option list strings gmap.

Import ListNotations.
Local Open Scope string_scope.
Local Open Scope list_scope.
Local Open Scope Z_scope.

(** ** Bytes, hex strings and Keccak-256

    [ethers.utils.keccak256], [arrayify] and [hexlify].  Identifiers are
    JavaScript strings of the form ["0x…"], compared with [===]; the hash is
    therefore returned as the lower-case hex string that ethers produces. *)

Module Hex.

Definition bytes := list byte.

Definition nibble (n : N) : ascii :=
  match n with
  | 0%N => "0" | 1%N => "1" | 2%N => "2" | 3%N => "3" | 4%N => "4"
  | 5%N => "5" | 6%N => "6" | 7%N => "7" | 8%N => "8" | 9%N => "9"
  | 10%N => "a" | 11%N => "b" | 12%N => "c" | 13%N => "d" | 14%N => "e"
  | _ => "f"
  end%char.

Definition hex_of_byte (b : byte) : string :=
  let n := Byte.to_N b in
  String (nibble (N.shiftr n 4)) (String (nibble (N.land n 15)) EmptyString).

Fixpoint hex_digits (bs : bytes) : string :=
  match bs with
  | [] => EmptyString
  | b :: r => String.append (hex_of_byte b) (hex_digits r)
  end.

(** [hexlify]: ["0x"] followed by two lower-case digits per byte. *)
Definition hexlify (bs : bytes) : string := String.append "0x" (hex_digits bs).

Definition digit_value (a : ascii) : option N :=
  let n := N_of_ascii a in
  if ((48 <=? n) && (n <=? 57))%N then Some (n - 48)%N
  else if ((97 <=? n) && (n <=? 102))%N then Some (n - 87)%N
  else if ((65 <=? n) && (n <=? 70))%N then Some (n - 55)%N
  else None.

Definition byte_of_N (n : N) : byte :=
  match Byte.of_N n with Some b => b | None => x00 end.

Fixpoint parse_digits (s : string) : option bytes :=
  match s with
  | EmptyString => Some []
  | String hi (String lo r) =>
      match digit_value hi, digit_value lo, parse_digits r with
      | Some h, Some l, Some bs => Some (byte_of_N (16 * h + l) :: bs)
      | _, _, _ => None
      end
  | String _ EmptyString => None
  end.

(** [arrayify] of a hex string; [None] stands for the exception ethers
    raises on anything that is not ["0x"] plus an even number of digits. *)
Definition arrayify (s : string) : option bytes :=
  match s with
  | String "0" (String "x" r) => parse_digits r
  | _ => None
  end.

(** Big-endian unsigned integer of [len] bytes. *)
Fixpoint be_bytes (len : nat) (n : N) : bytes :=
  match len with
  | O => []
  | S k => be_bytes k (N.shiftr n 8) ++ [byte_of_N (N.land n 255)]
  end.

Fixpoint be_value (bs : bytes) (acc : N) : N :=
  match bs with
  | [] => acc
  | b :: r => be_value r (256 * acc + Byte.to_N b)%N
  end.

Fixpoint decimal_value (s : string) (acc : N) : option N :=
  match s with
  | EmptyString => Some acc
  | String a r =>
      let n := N_of_ascii a in
      if ((48 <=? n) && (n <=? 57))%N then decimal_value r (10 * acc + (n - 48))%N
      else None
  end.

(** [BigNumber.from] on a string: decimal digits, or a hex string. *)
Definition bignumber_of_string (s : string) : option N :=
  match s with
  | EmptyString => None
  | String "0" (String "x" _) =>
      match arrayify s with Some bs => Some (be_value bs 0%N) | None => None end
  | _ => decimal_value s 0%N
  end.

End Hex.

Module Keccak.
Import Hex.

Local Open Scope N_scope.

Definition w64 : N := 2 ^ 64.

Definition rotl64 (x n : N) : N :=
  N.lor (N.shiftl x n mod w64) (N.shiftr x (64 - n)).

Definition lane (st : list N) (i : nat) : N := nth i st 0.

Definition round_constants : list N :=
  [ 0x0000000000000001; 0x0000000000008082; 0x800000000000808a;
    0x8000000080008000; 0x000000000000808b; 0x0000000080000001;
    0x8000000080008081; 0x8000000000008009; 0x000000000000008a;
    0x0000000000000088; 0x0000000080008009; 0x000000008000000a;
    0x000000008000808b; 0x800000000000008b; 0x8000000000008089;
    0x8000000000008003; 0x8000000000008002; 0x8000000000000080;
    0x000000000000800a; 0x800000008000000a; 0x8000000080008081;
    0x8000000000008080; 0x0000000080000001; 0x8000000080008008 ].

Definition rotation_offsets : list N :=
  [ 1; 3; 6; 10; 15; 21; 28; 36; 45; 55; 2; 14;
    27; 41; 56; 8; 25; 43; 62; 18; 39; 61; 20; 44 ].

Definition pi_lanes : list nat :=
  [ 10; 7; 11; 17; 18; 3; 5; 16; 8; 21; 24; 4;
    15; 23; 19; 13; 12; 2; 20; 14; 22; 9; 6; 1 ]%nat.

Definition theta (st : list N) : list N :=
  let c := fun x : nat =>
    N.lxor (lane st x) (N.lxor (lane st (x + 5)) (N.lxor (lane st (x + 10))
      (N.lxor (lane st (x + 15)) (lane st (x + 20))))) in
  let d := fun x : nat =>
    N.lxor (c ((x + 4) mod 5)%nat) (rotl64 (c ((x + 1) mod 5)%nat) 1) in
  map (fun i : nat => N.lxor (lane st i) (d (i mod 5)%nat)) (seq 0 25).

Definition rho_pi (st : list N) : list N :=
  snd (fold_left
         (fun (acc : N * list N) (jr : nat * N) =>
            (lane st (fst jr), <[fst jr := rotl64 (fst acc) (snd jr)]> (snd acc)))
         (combine pi_lanes rotation_offsets)
         (lane st 1, st)).

Definition chi (st : list N) : list N :=
  map (fun i : nat =>
         let row := (5 * (i / 5))%nat in
         let x := (i mod 5)%nat in
         N.lxor (lane st i)
                (N.ldiff (lane st (row + (x + 2) mod 5)) (lane st (row + (x + 1) mod 5))))
      (seq 0 25).

Definition iota (rc : N) (st : list N) : list N :=
  match st with
  | [] => []
  | a :: r => N.lxor a rc :: r
  end.

Definition keccak_round (st : list N) (rc : N) : list N :=
  iota rc (chi (rho_pi (theta st))).

Definition keccak_f (st : list N) : list N :=
  fold_left keccak_round round_constants st.

(** Little-endian lanes of one 136-byte block. *)
Fixpoint le_value (bs : bytes) : N :=
  match bs with
  | [] => 0
  | b :: r => Byte.to_N b + 256 * le_value r
  end.

Fixpoint le_bytes (len : nat) (n : N) : bytes :=
  match len with
  | O => []
  | S k => byte_of_N (N.land n 255) :: le_bytes k (N.shiftr n 8)
  end.

Fixpoint lanes_of (count : nat) (bs : bytes) : list N :=
  match count with
  | O => []
  | S k => le_value (take 8 bs) :: lanes_of k (drop 8 bs)
  end.

Definition rate : nat := 136.

Definition absorb_block (st : list N) (block : bytes) : list N :=
  let ls := lanes_of 17 block in
  keccak_f (map (fun i : nat => N.lxor (lane st i) (lane ls i)) (seq 0 25)).

(** Multi-rate padding with the original Keccak domain byte [0x01]. *)
Definition pad (msg : bytes) : bytes :=
  let fill := (rate - 1 - (List.length msg) mod rate)%nat in
  match fill with
  | O => msg ++ [byte_of_N 0x81]
  | S k => msg ++ [byte_of_N 0x01] ++ repeat x00 k ++ [byte_of_N 0x80]
  end.

Fixpoint absorb (fuel : nat) (st : list N) (bs : bytes) : list N :=
  match fuel with
  | O => st
  | S k =>
      match bs with
      | [] => st
      | _ => absorb k (absorb_block st (take rate bs)) (drop rate bs)
      end
  end.

Definition digest (msg : bytes) : bytes :=
  let padded := pad msg in
  let st := absorb (S (List.length padded / rate)) (repeat 0 25) padded in
  flat_map (le_bytes 8) (take 4 st).

(** [ethers.utils.keccak256]: the digest as a ["0x…"] string. *)
Definition keccak256 (msg : bytes) : string := hexlify (digest msg).

End Keccak.

(** ** Exceptions

    A JavaScript expression either has a value or throws. *)

Inductive result (A : Type) : Type :=
| Ok (a : A)
| Throw (error : string).
Arguments Ok {A} a.
Arguments Throw {A} error.

#[global] Instance result_ret : MRet result := fun _ a => Ok a.

#[global] Instance result_bind : MBind result := fun _ _ k r =>
  match r with
  | Ok a => k a
  | Throw e => Throw e
  end.

(** A left fold whose step may throw: [Array.prototype.reduce] and [forEach]
    with a callback that calls into ethers. *)
Fixpoint reduce {A B} (f : B -> A -> result B) (l : list A) (acc : B) : result B :=
  match l with
  | [] => Ok acc
  | a :: r => f acc a ≫= reduce f r
  end.

(** ** ABI encodings used for identifiers *)

Module Abi.
Import Hex Keccak.

(** The configuration's subscription object; every field is the JSON string
    of the configuration file. *)
Record Subscription : Type := {
  chainId : string;
  airnodeAddress : string;
  templateId : string;
  parameters : string;
  conditions : string;
  relayer : string;
  sponsor : string;
  requester : string;
  fulfillFunctionId : string
}.

Definition sized (len : nat) (s : string) : option bytes :=
  match arrayify s with
  | Some bs => if Nat.eqb (List.length bs) len then Some bs else None
  | None => None
  end.

Definition uint256 (s : string) : option bytes :=
  match bignumber_of_string s with
  | Some n => if (n <? 2 ^ 256)%N then Some (be_bytes 32 n) else None
  | None => None
  end.

Definition word_of_nat (n : nat) : bytes := be_bytes 32 (N.of_nat n).

Definition pad_right (bs : bytes) : bytes :=
  bs ++ repeat x00 ((32 - List.length bs mod 32) mod 32)%nat.

Definition pad_left (bs : bytes) : bytes :=
  repeat x00 (32 - List.length bs)%nat ++ bs.

(** Tail of a dynamic [bytes] or [string] value: length word, then the data
    padded to a multiple of 32 bytes. *)
Definition dynamic_tail (bs : bytes) : bytes :=
  word_of_nat (List.length bs) ++ pad_right bs.

Definition opt_bind {A B} (o : option A) (k : A -> option B) : option B :=
  match o with
  | Some a => k a
  | None => None
  end.

(** [defaultAbiCoder.encode(['uint256','address','bytes32','bytes','bytes',
    'address','address','address','bytes4'], [...])].  Addresses are taken
    as 0x-prefixed strings of 40 hex digits (ethers' checksum test on
    mixed-case addresses is outside this model); [None] is the exception
    ethers raises on a value that does not fit its type. *)
Definition abiEncode (s : Subscription) : option bytes :=
  opt_bind (uint256 (chainId s)) (fun c =>
  opt_bind (sized 20 (airnodeAddress s)) (fun a =>
  opt_bind (sized 32 (templateId s)) (fun t =>
  opt_bind (arrayify (parameters s)) (fun p =>
  opt_bind (arrayify (conditions s)) (fun k =>
  opt_bind (sized 20 (relayer s)) (fun r =>
  opt_bind (sized 20 (sponsor s)) (fun sp =>
  opt_bind (sized 20 (requester s)) (fun rq =>
  opt_bind (sized 4 (fulfillFunctionId s)) (fun f =>
    let head_size := (9 * 32)%nat in
    let tail_p := dynamic_tail p in
    let tail_k := dynamic_tail k in
    Some (c ++ pad_left a ++ t
            ++ word_of_nat head_size
            ++ word_of_nat (head_size + List.length tail_p)
            ++ pad_left r ++ pad_left sp ++ pad_left rq ++ pad_right f
            ++ tail_p ++ tail_k)))))))))).

(** [solidityPack] with the same nine types: the values back to back, an
    address as the bytes of its string, nothing padded but the integer. *)
Definition solidityPack (s : Subscription) : option bytes :=
  opt_bind (uint256 (chainId s)) (fun c =>
  opt_bind (arrayify (airnodeAddress s)) (fun a =>
  opt_bind (sized 32 (templateId s)) (fun t =>
  opt_bind (arrayify (parameters s)) (fun p =>
  opt_bind (arrayify (conditions s)) (fun k =>
  opt_bind (arrayify (relayer s)) (fun r =>
  opt_bind (arrayify (sponsor s)) (fun sp =>
  opt_bind (arrayify (requester s)) (fun rq =>
  opt_bind (sized 4 (fulfillFunctionId s)) (fun f =>
    Some (c ++ a ++ t ++ p ++ k ++ r ++ sp ++ rq ++ f)))))))))).

(** [keccak256(defaultAbiCoder.encode(...))]. *)
Definition abiSubscriptionId (s : Subscription) : result string :=
  match abiEncode s with
  | Some bs => Ok (keccak256 bs)
  | None => Throw "invalid value for type"
  end.

(** [ethers.utils.solidityKeccak256(...)]. *)
Definition packedSubscriptionId (s : Subscription) : result string :=
  match solidityPack s with
  | Some bs => Ok (keccak256 bs)
  | None => Throw "invalid value for type"
  end.

Record Template : Type := {
  endpointId : string;
  templateParameters : string;
  (** [Object.keys(template)[0]]: the name of the first property of the
      configuration's template object. *)
  firstKey : string
}.

Record Endpoint : Type := {
  oisTitle : string;
  endpointName : string
}.

(** [solidityKeccak256(['bytes32','bytes'], [endpointId, templateParameters])]. *)
Definition solidityKeccak256 (endpoint_id params : string) : result string :=
  match sized 32 endpoint_id, arrayify params with
  | Some e, Some p => Ok (keccak256 (e ++ p))
  | _, _ => Throw "invalid value for type"
  end.

Definition utf8 (s : string) : bytes := list_byte_of_string s.

(** [keccak256(defaultAbiCoder.encode(['string','string'], [oisTitle, endpointName]))]. *)
Definition endpointIdOf (e : Endpoint) : string :=
  let t1 := dynamic_tail (utf8 (oisTitle e)) in
  let t2 := dynamic_tail (utf8 (endpointName e)) in
  keccak256 (word_of_nat 64 ++ word_of_nat (64 + List.length t1) ++ t1 ++ t2).

End Abi.

(** ** [lodash/groupBy]

    The result is an object; [Object.keys] lists its string keys in insertion
    order (the keys here are ["0x…"] strings, never array indices), so the
    groups are kept as an association list in order of first occurrence. *)

Section GroupBy.
Context {A : Type} (key : A -> string).

Fixpoint group_insert (a : A) (groups : list (string * list A)) : list (string * list A) :=
  match groups with
  | [] => [(key a, [a])]
  | (k, members) :: rest =>
      if String.eqb (key a) k then (k, members ++ [a]) :: rest
      else (k, members) :: group_insert a rest
  end.

Definition groupBy (l : list A) : list (string * list A) :=
  fold_left (fun groups a => group_insert a groups) l [].

Definition with_key (k : string) (l : list A) : list A :=
  List.filter (fun a => String.eqb (key a) k) l.

(** The invariant behind [groupBy]: every group is the sub-list of the
    input with that key, in input order, and the keys are distinct. *)
Definition grouped (l : list A) (groups : list (string * list A)) : Prop :=
  List.NoDup (map fst groups)
  /\ (forall k members, In (k, members) groups -> members = with_key k l /\ members <> [])
  /\ (forall a, In a l -> In (key a) (map fst groups)).

End GroupBy.

(** ** The outside world

    Everything the handlers reach through a provider, a contract or the HTTP
    adapter.  One attempt of an external call either resolves or rejects; the
    oracles take the attempt number, so that a retried call may fare
    differently from the first one. *)

Module World.

Record Provider : Type := {
  providerChainId : string;
  providerName : string;
  providerUrl : string
}.

(** A wallet of the HD tree of [walletMnemonic] at [walletPath]. *)
Record Wallet : Type := {
  walletMnemonic : string;
  walletPath : string
}.

Inductive reply (A : Type) : Type :=
| Resolved (value : A)
| Rejected.
Arguments Resolved {A} value.
Arguments Rejected {A}.

Definition AddressZero : string := "0x0000000000000000000000000000000000000000".

Inductive event : Type :=
(** a [logger.warn] or [logger.error] line *)
| Warned (message : string)
(** a value taken from the cache of API values *)
| ApiValueRead (key : string)
(** a read-only contract call, from [signer] when the contract is connected
    to one *)
| Called (signer : option string) (method : string) (argument : string)
(** a transaction handed to the provider with this nonce *)
| Sent (from : Wallet) (method : string) (key : string) (txNonce : Z) (accepted : bool).

(** One entry of a job's [templateParameters]. *)
Record TemplateParameter : Type := {
  parameterType : string;
  parameterName : string;
  parameterValue : string
}.

Record Env : Type := {
  (** how many times [retryGo] calls its closure again after a rejection *)
  retries : nat;
  (** [abi.encode] of [@api3/airnode-abi]; it throws on a malformed list *)
  abiEncodeParameters : list TemplateParameter -> result string;
  (** [abi.decode] of [@api3/airnode-abi] on a template's parameters; it
      throws on bytes that are not such an encoding *)
  abiDecodeParameters : string -> option (list TemplateParameter);
  (** [node.evm.templates.getExpectedTemplateId]: airnode address,
      endpoint id, encoded parameters *)
  getExpectedTemplateId : string -> string -> string -> string;
  (** the address of the airnode wallet: mnemonic, and the xpub if given *)
  deriveAirnodeAddress : string -> option string -> string;
  (** [abi.decode] of a subscription's conditions and the lookup of the
      condition function in the DapiServer interface: the function's name
      and the condition parameters, or an exception *)
  decodeConditions : string -> option (string * string);
  (** [provider.getBlockNumber()] *)
  getBlockNumber : Provider -> nat -> reply Z;
  (** [provider.getTransactionCount(address, currentBlock)] *)
  getTransactionCount : Provider -> Wallet -> Z -> nat -> reply Z;
  (** [getGasPrice]: is there a gas target *)
  getGasPrice : Provider -> bool;
  (** [RrpBeaconServer.readBeacon(beaconId)]: the [value] field, if any *)
  readBeacon : Provider -> string -> nat -> reply (option N);
  (** [queryFilter] for [RequestedBeaconUpdate(beaconId, requestSponsor,
      keeperSponsorWallet)] between two blocks: the events' request ids *)
  requestedBeaconUpdates :
    Provider -> string -> string -> Wallet -> Z -> Z -> nat -> reply (list string);
  (** [queryFilter] for [UpdatedBeacon(beaconId)]: the events' request ids *)
  updatedBeacons : Provider -> string -> Z -> Z -> nat -> reply (list string);
  (** [AirnodeRrp.requestIsAwaitingFulfillment(requestId)] *)
  requestIsAwaitingFulfillment : Provider -> string -> nat -> reply bool;
  (** the condition function of [DapiServer]: function name, subscription
      id, API value, condition parameters *)
  conditionFunction : Provider -> string -> string -> Z -> string -> nat -> reply bool;
  (** the HTTP adapter behind [callApi] and [readApiValue], by work unit:
      a value, or [null] when the adapter reports a failed call *)
  apiCall : string -> nat -> reply (option Z);
  (** sending a signed transaction: wallet, work unit, nonce, attempt *)
  sendTransaction : Provider -> Wallet -> string -> Z -> nat -> reply unit
}.

(** *** Retries

    Modelled from the spec: [retryGo] of [utils] is not among the sources.
    "Model as a result sum type returned from every external call and a
    single retry combinator parameterized by attempt count": the closure is
    called until an attempt resolves, at most [S retries] times.  Its callers
    read the outcome as [[err, data]] and test [isNil(data)] beside [err]:
    after the last rejection the data component is [null] ([None] here). *)
Fixpoint attempts_from {A} (fuel attempt : nat) (f : nat -> reply A) : option A :=
  match f attempt with
  | Resolved a => Some a
  | Rejected =>
      match fuel with
      | O => None
      | S k => attempts_from k (S attempt) f
      end
  end.

Definition retryGo {A} (env : Env) (f : nat -> reply A) : option A :=
  attempts_from (retries env) 0 f.

End World.

(** ** One sponsor wallet's task

    The body of the [async] function run for one sponsor: a counter for the
    next nonce, the trace of what was done, and two ways of leaving an
    iteration early, [continue] and an uncaught exception. *)

Module Task.
Import World.

Record TaskState : Type := {
  nonce : Z;
  trace : list event
}.

Inductive interrupt : Type :=
| Continue
| Raise (error : string).

Definition Task (A : Type) : Type := TaskState -> (A + interrupt) * TaskState.

#[global] Instance task_ret : MRet Task := fun _ a s => (inl a, s).

#[global] Instance task_bind : MBind Task := fun _ _ k m s =>
  match m s with
  | (inl a, s') => k a s'
  | (inr i, s') => (inr i, s')
  end.

Definition emit (e : event) : Task unit := fun s =>
  (inl tt, {| nonce := nonce s; trace := trace s ++ [e] |}).

Definition warn (message : string) : Task unit := emit (Warned message).

(** [continue] *)
Definition skip {A} : Task A := fun s => (inr Continue, s).

(** an exception nobody catches inside the task *)
Definition raise {A} (error : string) : Task A := fun s => (inr (Raise error), s).

Definition lift {A} (r : result A) : Task A :=
  match r with
  | Ok a => mret a
  | Throw e => raise e
  end.

(** a guard that logs and [continue]s *)
Definition skip_if (b : bool) (message : string) : Task unit :=
  if b then warn message ;; skip else mret tt.

Definition or_skip {A} (o : option A) (message : string) : Task A :=
  match o with
  | Some a => mret a
  | None => warn message ;; skip
  end.

Definition or_raise {A} (o : option A) (error : string) : Task A :=
  match o with
  | Some a => mret a
  | None => raise error
  end.

(** the [logger.error] line of a failed submission *)
Definition submitFailed : string := "failed to submit transaction. skipping update".

(** [nonce++]: the value before the increment *)
Definition next_nonce : Task Z := fun s =>
  (inl (nonce s), {| nonce := nonce s + 1; trace := trace s |}).

(** [retryGo] around a closure that changes the task's state: the state
    changes of every attempt are kept. *)
Fixpoint attempts_in_task {A} (fuel attempt : nat)
    (f : nat -> TaskState -> reply A * TaskState) (s : TaskState) : option A * TaskState :=
  match f attempt s with
  | (Resolved a, s') => (Some a, s')
  | (Rejected, s') =>
      match fuel with
      | O => (None, s')
      | S k => attempts_in_task k (S attempt) f s'
      end
  end.

Definition retryGo_in_task {A} (env : Env)
    (f : nat -> TaskState -> reply A * TaskState) : Task (option A) := fun s =>
  let '(r, s') := attempts_in_task (retries env) 0 f s in (inl r, s').

(** A closure given to [retryGo] that builds the transaction's overrides
    itself, with [nonce: nonce++]: every attempt takes a fresh nonce. *)
Definition sendWithNextNonce (env : Env) (provider : Provider) (wallet : Wallet)
    (method key : string) (attempt : nat) (s : TaskState) : reply unit * TaskState :=
  let n := nonce s in
  match sendTransaction env provider wallet key n attempt with
  | Resolved _ =>
      (Resolved tt, {| nonce := n + 1; trace := trace s ++ [Sent wallet method key n true] |})
  | Rejected =>
      (Rejected, {| nonce := n + 1; trace := trace s ++ [Sent wallet method key n false] |})
  end.

(** [for (const item of items) { body }] inside the task: [continue] goes to
    the next item, an exception ends the task. *)
Fixpoint for_of {J} (body : J -> Task unit) (items : list J) (s : TaskState)
    : option string * TaskState :=
  match items with
  | [] => (None, s)
  | j :: rest =>
      match body j s with
      | (inr (Raise e), s') => (Some e, s')
      | (_, s') => for_of body rest s'
      end
  end.

(** The nonces of the transactions of a trace, in the order they were sent. *)
Definition sent_nonce (e : event) : option Z :=
  match e with
  | Sent _ _ _ n _ => Some n
  | _ => None
  end.

Definition sent_nonces (t : list event) : list Z := omap sent_nonce t.

(** [n, n+1, ..., n+k-1] *)
Definition consecutive (n : Z) (k : nat) : list Z :=
  map (fun i => n + Z.of_nat i) (seq 0 k).

(** From [s] to [s']: events were only appended, every transaction among
    them took the counter's value as its nonce, and the counter moved by one
    per transaction. *)
Definition advances (s s' : TaskState) : Prop :=
  exists evs,
    trace s' = trace s ++ evs
    /\ sent_nonces evs = consecutive (nonce s) (List.length (sent_nonces evs))
    /\ nonce s' = nonce s + Z.of_nat (List.length (sent_nonces evs)).


End Task.

(** ** Sponsor wallets *)

Module Wallets.
Import Hex World.

Definition decimal (n : N) : string := NilEmpty.string_of_uint (N.to_uint n).

(** Modelled from the spec: the derivation path of a sponsor wallet (the
    [deriveSponsorWallet] of [utils] and [wallet], and airnode's
    [deriveSponsorWalletFromMnemonic], are not among the sources).
    "[m/44'/60'/0'/<P>/<a>/<b>/<c>/<d>/<e>/<f>] where [<a>..<f>] are derived
    from [S] by splitting its 20 bytes into six 31-bit unsigned groups":
    the address is read as a big-endian integer and group [i] is bits
    [31*i .. 31*i+30] of it. *)
Definition addressGroup (address : N) (i : nat) : N :=
  N.land (N.shiftr address (31 * N.of_nat i)) (2 ^ 31 - 1).

Definition sponsorWalletPath (protocolId sponsor : string) : string :=
  let address :=
    match arrayify sponsor with
    | Some bs => be_value bs 0%N
    | None => 0%N
    end in
  String.concat "/"
    ("m/44'/60'/0'" :: protocolId :: map (fun i => decimal (addressGroup address i)) (seq 0 6)).

Definition deriveSponsorWallet (mnemonic sponsor protocolId : string) : Wallet :=
  {| walletMnemonic := mnemonic; walletPath := sponsorWalletPath protocolId sponsor |}.

End Wallets.

(** ** Deviation and pending requests (RRP) *)

Module Deviation.

(** [Number(deviationPercentage)] is [None] for [NaN], else the decimal as
    an exact rational; the product by 100 is taken exactly (the rounding of
    IEEE doubles is outside this model). *)
Definition timesHundred (q : Q) : Q := Qred (q * 100).

Definition isInteger (q : Q) : bool := Pos.eqb (Qden (Qred q)) 1.

(** The test of step "Verify deviationPercentage": the number when the job
    passes, [None] when it is rejected. *)
Definition checkedDeviationPercentage (dp : option Q) : option Q :=
  match dp with
  | None => None
  | Some q =>
      if Qle_bool q 0 || negb (Qle_bool q 100) || negb (isInteger (timesHundred q))
      then None else Some q
  end.

Definition basisPoints : Z := 10 ^ 16.

(** [beaconValue.sub(apiValue).abs()] *)
Definition delta (beaconValue apiValue : Z) : Z := Z.abs (beaconValue - apiValue).

(** [delta.mul(basisPoints).mul(100).div(beaconValue)], the divisor being
    one when the beacon is zero; [BigNumber.div] truncates. *)
Definition deviation (beaconValue apiValue : Z) : Z :=
  let divisor := if beaconValue =? 0 then 1 else beaconValue in
  Z.quot (delta beaconValue apiValue * basisPoints * 100) divisor.

(** [basisPoints.mul(Number(deviationPercentage) * 100)] *)
Definition percentageThreshold (q : Q) : Z := basisPoints * Qnum (timesHundred q).

(** [deviation.lte(percentageThreshold.div(100))] *)
Definition withinThreshold (beaconValue apiValue : Z) (q : Q) : bool :=
  deviation beaconValue apiValue <=? Z.quot (percentageThreshold q) 100.


(** The first [RequestedBeaconUpdate] event whose request id matches no
    [UpdatedBeacon] event:
    [const [pending] = requested.filter((r) => !updated.some(...))]. *)
Definition pendingRequestedBeaconUpdateEvent (requested updated : list string)
    : option string :=
  head (List.filter (fun r => negb (existsb (String.eqb r) updated)) requested).

End Deviation.

(** ** Chains, providers and the handler's answer *)

Module Chains.
Import World Task.

Record ChainConfig : Type := {
  id : string;
  type : string;
  (** [providers]: name and url, in the order of the object's keys *)
  providers : list (string * string);
  blockHistoryLimit : option Z
}.

Definition GAS_LIMIT : Z := 500000.
Definition BLOCK_COUNT_HISTORY_LIMIT : Z := 300.

(** [chains.filter((chain) => chain.type === 'evm')] *)
Definition evmChains (chains : list ChainConfig) : list ChainConfig :=
  List.filter (fun chain => String.eqb (type chain) "evm") chains.

(** [chain.blockHistoryLimit || BLOCK_COUNT_HISTORY_LIMIT] *)
Definition historyLimit (chain : ChainConfig) : Z :=
  match blockHistoryLimit chain with
  | Some n => if n =? 0 then BLOCK_COUNT_HISTORY_LIMIT else n
  | None => BLOCK_COUNT_HISTORY_LIMIT
  end.

Definition providersOf (chain : ChainConfig) : list Provider :=
  map (fun p => {| providerChainId := id chain; providerName := fst p; providerUrl := snd p |})
      (providers chain).

(** What became of the task of one sponsor under one provider. *)
Record SponsorRun : Type := {
  runProvider : Provider;
  runSponsor : string;
  runWallet : Wallet;
  (** the transaction count fetched for the wallet, if the fetch succeeded *)
  runCount : option Z;
  (** the exception that ended the task, if any *)
  runError : option string;
  runState : TaskState
}.

(** What an invocation did: the value the handler's promise settles to
    ([Throw] for a rejection) and the sponsor tasks it started. *)
Record Invocation : Type := {
  response : result string;
  runs : list SponsorRun
}.

(** What became of the [async] function of one provider: the exception it
    threw before starting its sponsor tasks, if any, and those tasks. *)
Definition ProviderRun : Type := option string * list SponsorRun.

Definition errorsOf (p : ProviderRun) : list string :=
  match fst p with
  | Some e => [e]
  | None => omap runError (snd p)
  end.

(** [await Promise.all(providerPromises)], then the 200 response: the
    handler's promise rejects when one of the tasks did. *)
Definition settle (message : string) (ps : list ProviderRun) : Invocation :=
  {| response :=
       match flat_map errorsOf ps with
       | e :: _ => Throw e
       | [] => Ok message
       end;
     runs := flat_map snd ps |}.


Definition evmError : string :=
  "One or more evm compatible chain(s) must be defined in the provided config".

End Chains.

(** ** What a sponsor task may do, and where *)

Module Signing.
Import World Task Chains.

(** What a sponsor's task may do to the outside world: transactions of one
    contract method signed by the task's own wallet, and read-only calls
    that name no signer or the void signer at the zero address. *)
Definition own_event (wallet : Wallet) (method : string) (e : event) : Prop :=
  match e with
  | Sent from m _ _ _ => from = wallet /\ m = method
  | Called (Some signer) _ _ => signer = AddressZero
  | _ => True
  end.

Definition signs_with (method : string) (r : SponsorRun) : Prop :=
  Forall (own_event (runWallet r) method) (trace (runState r)).

End Signing.

Module Placement.
Import World Task Chains.

(** A sponsor's task ran under a provider of a chain of type ['evm'] among
    [chains], and that provider's block number had been fetched. *)
Definition on_evm_chain (env : Env) (chains : list ChainConfig) (r : SponsorRun) : Prop :=
  exists chain,
    In chain chains
    /\ type chain = "evm"
    /\ In (runProvider r) (providersOf chain)
    /\ retryGo env (getBlockNumber env (runProvider r)) <> None.

End Placement.

(** ** [src/handlers/rrp.ts] *)

Module Rrp.
Import World Task Deviation Chains.

Record Job : Type := {
  chainIds : option (list string);
  templateId : string;
  templateParameters : list TemplateParameter;
  endpointId : string;
  deviationPercentage : option Q;
  keeperSponsor : string;
  requestSponsor : string
}.

Record Config : Type := {
  chains : list ChainConfig;
  airnodeWalletMnemonic : string;
  airnodeXpub : option string;
  airnodeAddress : option string;
  rrpBeaconServerKeeperJobs : list Job;
  endpoints : gmap string Abi.Endpoint
}.

(** The closure given to [retryGo] for one job in "Read and cache API
    values": the beacon id with the API value, [null] after a failed
    verification.  A closure that throws counts as a rejected attempt. *)
Definition apiValueClosure (env : Env) (config : Config) (address : string) (job : Job)
    (attempt : nat) : reply (string * option Z) :=
  match endpoints config !! endpointId job with
  | None => Rejected
  | Some endpoint =>
      match abiEncodeParameters env (templateParameters job) with
      | Throw _ => Rejected
      | Ok encodedParameters =>
          match Abi.solidityKeccak256 (templateId job) encodedParameters with
          | Throw _ => Rejected
          | Ok beaconId =>
              let expectedEndpointId := Abi.endpointIdOf endpoint in
              if negb (String.eqb expectedEndpointId (endpointId job))
              then Resolved (beaconId, None)
              else
                let expectedTemplateId :=
                  getExpectedTemplateId env address expectedEndpointId encodedParameters in
                if negb (String.eqb expectedTemplateId (templateId job))
                then Resolved (beaconId, None)
                else
                  match apiCall env beaconId attempt with
                  | Resolved data => Resolved (beaconId, data)
                  | Rejected => Rejected
                  end
          end
      end
  end.

(** [responses.reduce(...)]: a response without data adds nothing. *)
Definition logsAndApiValuesByBeaconId (env : Env) (config : Config) (address : string)
    : gmap string (option Z) :=
  fold_left
    (fun acc job =>
       match retryGo env (apiValueClosure env config address job) with
       | None => acc
       | Some (beaconId, data) => <[beaconId := data]> acc
       end)
    (rrpBeaconServerKeeperJobs config) ∅.

(** [chainIds && !chainIds.includes(chain.id)] *)
Definition notForChain (chain : ChainConfig) (job : Job) : bool :=
  match chainIds job with
  | Some ids => negb (existsb (String.eqb (id chain)) ids)
  | None => false
  end.

(** One iteration of the loop over a keeper sponsor's jobs, steps 3.2.3.1
    to 3.2.3.10. *)
Definition processJob (env : Env) (cache : gmap string (option Z)) (chain : ChainConfig)
    (provider : Provider) (currentBlock : Z) (keeperSponsorWallet : Wallet) (job : Job)
    : Task unit :=
  encodedParameters ← lift (abiEncodeParameters env (templateParameters job));
  beaconId ← lift (Abi.solidityKeccak256 (templateId job) encodedParameters);
  (if notForChain chain job then skip else mret tt) ;;
  emit (ApiValueRead beaconId) ;;
  entry ← or_raise (cache !! beaconId)
            "TypeError: Cannot read properties of undefined (reading 'apiValue')";
  apiValue ← or_skip entry "API value is missing. skipping update";
  percentage ← or_skip (checkedDeviationPercentage (deviationPercentage job))
                 "deviationPercentage must be a number larger than 0 and less then or equal to 100 with no more than 2 decimal places";
  emit (Called (Some AddressZero) "readBeacon" beaconId) ;;
  beaconResponse ← or_skip (retryGo env (readBeacon env provider beaconId))
                     "failed to read value for beaconId";
  value ← or_skip beaconResponse "failed to read value for beaconId";
  let beaconValue := Z.of_N value in
  skip_if (delta beaconValue apiValue =? 0) "beacon is up-to-date. skipping update" ;;
  skip_if (withinThreshold beaconValue apiValue percentage)
          "delta between beacon value and API value is within threshold. skipping update" ;;
  let fromBlock := historyLimit chain * -1 in
  requestedBeaconUpdateEvents ←
    or_skip (retryGo env (requestedBeaconUpdates env provider beaconId (requestSponsor job)
                            keeperSponsorWallet fromBlock currentBlock))
            "failed to fetch RequestedBeaconUpdate events";
  updatedBeaconEvents ←
    or_skip (retryGo env (updatedBeacons env provider beaconId fromBlock currentBlock))
            "failed to fetch UpdatedBeacon events";
  match pendingRequestedBeaconUpdateEvent requestedBeaconUpdateEvents updatedBeaconEvents with
  | Some requestId =>
      emit (Called None "requestIsAwaitingFulfillment" requestId) ;;
      awaiting ← or_skip (retryGo env (requestIsAwaitingFulfillment env provider requestId))
                   "failed to check if request is awaiting fulfillment";
      skip_if awaiting "request is awaiting fulfillment. skipping update"
  | None => mret tt
  end ;;
  skip_if (negb (getGasPrice env provider)) "failed to fetch gas price. Skipping update..." ;;
  nonce ← next_nonce;
  match retryGo env (sendTransaction env provider keeperSponsorWallet beaconId nonce) with
  | None =>
      emit (Sent keeperSponsorWallet "requestBeaconUpdate" beaconId nonce false) ;;
      warn submitFailed ;;
      skip
  | Some _ =>
      emit (Sent keeperSponsorWallet "requestBeaconUpdate" beaconId nonce true)
  end.

(** The [async] function run for one keeper sponsor, steps 3.2.1 to 3.2.3. *)
Definition keeperSponsorTask (env : Env) (config : Config) (cache : gmap string (option Z))
    (chain : ChainConfig) (provider : Provider) (currentBlock : Z)
    (group : string * list Job) : SponsorRun :=
  let keeperSponsor := fst group in
  let keeperSponsorWallet :=
    Wallets.deriveSponsorWallet (airnodeWalletMnemonic config) keeperSponsor "12345" in
  match retryGo env (getTransactionCount env provider keeperSponsorWallet currentBlock) with
  | None =>
      {| runProvider := provider; runSponsor := keeperSponsor; runWallet := keeperSponsorWallet;
         runCount := None; runError := None;
         runState := {| nonce := 0;
                        trace := [Warned "failed to fetch the keeperSponsorWallet transaction count"] |} |}
  | Some count =>
      let '(error, final) :=
        for_of (processJob env cache chain provider currentBlock keeperSponsorWallet)
               (snd group) {| nonce := count; trace := [] |} in
      {| runProvider := provider; runSponsor := keeperSponsor; runWallet := keeperSponsorWallet;
         runCount := Some count; runError := error; runState := final |}
  end.

(** The [async] function run for one provider of one chain, steps 3.1 and 3.2. *)
Definition providerTask (env : Env) (config : Config) (cache : gmap string (option Z))
    (chain : ChainConfig) (provider : Provider) : ProviderRun :=
  match retryGo env (getBlockNumber env provider) with
  | None => (None, [])
  | Some currentBlock =>
      (None,
       map (keeperSponsorTask env config cache chain provider currentBlock)
           (groupBy keeperSponsor (rrpBeaconServerKeeperJobs config)))
  end.

Definition handler (env : Env) (config : Config) : Invocation :=
  let address := deriveAirnodeAddress env (airnodeWalletMnemonic config) (airnodeXpub config) in
  let mismatch :=
    match airnodeAddress config with
    | Some declared => negb (String.eqb declared "") && negb (String.eqb declared address)
    | None => false
    end in
  if mismatch then {| response := Throw "xpub does not belong to Airnode"; runs := [] |}
  else
    let cache := logsAndApiValuesByBeaconId env config address in
    match evmChains (chains config) with
    | [] => {| response := Throw evmError; runs := [] |}
    | evm =>
        settle "Airkeeper invocation has finished"
          (flat_map (fun chain => map (providerTask env config cache chain) (providersOf chain))
                    evm)
    end.

End Rrp.

(** ** The earlier RRP keeper: the API request inside the loop *)

Module RrpInline.
Import World Task Deviation Chains.

Record OisEndpoint : Type := {
  name : string;
  (** does [getReservedParameters] yield a [_type] for this endpoint *)
  reservedType : bool
}.

Record Ois : Type := {
  title : string;
  oisEndpoints : list OisEndpoint
}.

Record Job : Type := {
  templateId : string;
  overrideParameters : list TemplateParameter;
  templateParameters : list TemplateParameter;
  oisTitle : string;
  endpointName : string;
  deviationPercentage : option Q;
  keeperSponsor : string;
  requestSponsor : string
}.

Record Config : Type := {
  chains : list ChainConfig;
  airnodeWalletMnemonic : string;
  rrpBeaconServerKeeperJobs : list Job;
  ois : list Ois
}.

(** The closure given to [retryGo] for [requestBeaconUpdate]: its overrides
    are built inside the closure, so every attempt evaluates [nonce++]. *)
Definition requestBeaconUpdate (env : Env) (provider : Provider) (wallet : Wallet)
    (beaconId : string) : nat -> TaskState -> reply unit * TaskState :=
  sendWithNextNonce env provider wallet "requestBeaconUpdate" beaconId.

(** One iteration of the loop over a keeper sponsor's jobs. *)
Definition processJob (env : Env) (config : Config) (chain : ChainConfig)
    (provider : Provider) (currentBlock : Z) (keeperSponsorWallet : Wallet) (job : Job)
    : Task unit :=
  let configParameters := templateParameters job ++ overrideParameters job in
  encodedParameters ← lift (abiEncodeParameters env configParameters);
  beaconId ← lift (Abi.solidityKeccak256 (templateId job) encodedParameters);
  percentage ← or_skip (checkedDeviationPercentage (deviationPercentage job))
                 "deviationPercentage must be a number larger than 0 and less then or equal to 100 with no more than 2 decimal places";
  let address := deriveAirnodeAddress env (airnodeWalletMnemonic config) None in
  let endpointId :=
    Abi.endpointIdOf {| Abi.oisTitle := oisTitle job; Abi.endpointName := endpointName job |} in
  encodedTemplateParameters ← lift (abiEncodeParameters env (templateParameters job));
  let expectedTemplateId :=
    getExpectedTemplateId env address endpointId encodedTemplateParameters in
  skip_if (negb (String.eqb expectedTemplateId (templateId job)))
          "templateId does not match expected templateId" ;;
  emit (Called (Some AddressZero) "readBeacon" beaconId) ;;
  beaconResponse ← or_skip (retryGo env (readBeacon env provider beaconId))
                     "failed to read value for beaconId";
  value ← or_skip beaconResponse "failed to read value for beaconId";
  configOis ← or_raise (List.find (fun o => String.eqb (title o) (oisTitle job)) (ois config))
                "TypeError: Cannot read properties of undefined (reading 'endpoints')";
  configEndpoint ←
    or_raise (List.find (fun e => String.eqb (name e) (endpointName job)) (oisEndpoints configOis))
             "TypeError: Cannot read properties of undefined (reading 'reservedParameters')";
  skip_if (negb (reservedType configEndpoint)) "reserved parameter 'type' is missing for endpoint" ;;
  apiResponse ← or_skip (retryGo env (apiCall env beaconId))
                  "failed to fetch data from API for endpoint";
  apiValue ← or_skip apiResponse "failed to extract or encode value from API response";
  let beaconValue := Z.of_N value in
  skip_if (delta beaconValue apiValue =? 0) "beacon is up-to-date. skipping update" ;;
  skip_if (withinThreshold beaconValue apiValue percentage)
          "delta between beacon value and api value is within threshold. skipping update" ;;
  let fromBlock := historyLimit chain * -1 in
  requestedBeaconUpdateEvents ←
    or_skip (retryGo env (requestedBeaconUpdates env provider beaconId (requestSponsor job)
                            keeperSponsorWallet fromBlock currentBlock))
            "failed to fetch RequestedBeaconUpdate events";
  updatedBeaconEvents ←
    or_skip (retryGo env (updatedBeacons env provider beaconId fromBlock currentBlock))
            "failed to fetch UpdatedBeacon events";
  match pendingRequestedBeaconUpdateEvent requestedBeaconUpdateEvents updatedBeaconEvents with
  | Some requestId =>
      emit (Called None "requestIsAwaitingFulfillment" requestId) ;;
      awaiting ← or_skip (retryGo env (requestIsAwaitingFulfillment env provider requestId))
                   "failed to check if request is awaiting fulfillment";
      skip_if awaiting "request is awaiting fulfillment. skipping update"
  | None => mret tt
  end ;;
  skip_if (negb (getGasPrice env provider))
          "unable to submit transactions without gas price. skipping update" ;;
  sent ← retryGo_in_task env (requestBeaconUpdate env provider keeperSponsorWallet beaconId);
  match sent with
  | None => warn submitFailed
  | Some _ => mret tt
  end.

(** Modelled from the spec: [deriveKeeperSponsorWallet] of [utils] is not
    among the sources; "[12345] = keeper-sponsor convention for RRP keeper
    jobs". *)
Definition deriveKeeperSponsorWallet (mnemonic keeperSponsor : string) : Wallet :=
  Wallets.deriveSponsorWallet mnemonic keeperSponsor "12345".

Definition keeperSponsorTask (env : Env) (config : Config) (chain : ChainConfig)
    (provider : Provider) (currentBlock : Z) (group : string * list Job) : SponsorRun :=
  let keeperSponsor := fst group in
  let keeperSponsorWallet :=
    deriveKeeperSponsorWallet (airnodeWalletMnemonic config) keeperSponsor in
  match retryGo env (getTransactionCount env provider keeperSponsorWallet currentBlock) with
  | None =>
      {| runProvider := provider; runSponsor := keeperSponsor; runWallet := keeperSponsorWallet;
         runCount := None; runError := None;
         runState := {| nonce := 0;
                        trace := [Warned "failed to fetch the keeperSponsorWallet transaction count"] |} |}
  | Some count =>
      let '(error, final) :=
        for_of (processJob env config chain provider currentBlock keeperSponsorWallet)
               (snd group) {| nonce := count; trace := [] |} in
      {| runProvider := provider; runSponsor := keeperSponsor; runWallet := keeperSponsorWallet;
         runCount := Some count; runError := error; runState := final |}
  end.

Definition providerTask (env : Env) (config : Config) (chain : ChainConfig)
    (provider : Provider) : ProviderRun :=
  match retryGo env (getBlockNumber env provider) with
  | None => (None, [])
  | Some currentBlock =>
      (None,
       map (keeperSponsorTask env config chain provider currentBlock)
           (groupBy keeperSponsor (rrpBeaconServerKeeperJobs config)))
  end.

(** [handler]: the test before the fan-out is [isEmpty(chains)]. *)
Definition handler (env : Env) (config : Config) : Invocation :=
  let evm := evmChains (chains config) in
  match chains config with
  | [] => {| response := Throw evmError; runs := [] |}
  | _ =>
      settle "Airkeeper invocation has finished"
        (flat_map (fun chain => map (providerTask env config chain) (providersOf chain)) evm)
  end.

End RrpInline.

(** ** PSP subscriptions *)

Module Subscriptions.

(** [{ ...subscription, id: subscriptionId }] *)
Record IdSubscription : Type := {
  subscriptionId : string;
  details : Abi.Subscription
}.

(** A subscription carries the id [derive] gives its nine fields, and is
    the configuration's entry under that id. *)
Definition derived_by (derive : Abi.Subscription -> result string)
    (subscriptions : gmap string Abi.Subscription) (s : IdSubscription) : Prop :=
  subscriptions !! subscriptionId s = Some (details s)
  /\ derive (details s) = Ok (subscriptionId s).

Definition sponsorOf (s : IdSubscription) : string := Abi.sponsor (details s).
Definition templateIdOf (s : IdSubscription) : string := Abi.templateId (details s).
Definition chainIdOf (s : IdSubscription) : string := Abi.chainId (details s).

(** The test every version applies to one entry of the trigger list, given
    the hash it derives: look the subscription up, derive its id, keep it
    when the declared id is the derived one. *)
Definition verified (derive : Abi.Subscription -> result string)
    (subscriptions : gmap string Abi.Subscription)
    (acc : list IdSubscription) (declared : string) : result (list IdSubscription) :=
  match subscriptions !! declared with
  | None => Ok acc
  | Some subscription =>
      expectedSubscriptionId ← derive subscription;
      if String.eqb declared expectedSubscriptionId
      then Ok (acc ++ [{| subscriptionId := declared; details := subscription |}])
      else Ok acc
  end.

End Subscriptions.

(** ** [src/psp.ts]: [beaconUpdate] *)

Module PspMonolith.
Import World Task Chains Subscriptions.

Record Config : Type := {
  chains : list ChainConfig;
  airnodeWalletMnemonic : string;
  protoPsp : list string;
  subscriptions : gmap string Abi.Subscription;
  templates : gmap string Abi.Template
}.

(** "Fetch subscriptions details": the id is checked against
    [ethers.utils.solidityKeccak256] of the nine fields. *)
Definition protoSubscriptions (config : Config) : result (list IdSubscription) :=
  reduce (verified Abi.packedSubscriptionId (subscriptions config)) (protoPsp config) [].

(** The closure given to [retryGo] for [fulfillPspBeaconUpdate]: the
    overrides, with [nonce: nonce++], are built on every attempt. *)
Definition fulfillPspBeaconUpdate (env : Env) (provider : Provider) (wallet : Wallet)
    (subscription : IdSubscription) : nat -> TaskState -> reply unit * TaskState :=
  sendWithNextNonce env provider wallet "fulfillPspBeaconUpdate" (subscriptionId subscription).

(** One iteration of the loop over a sponsor's subscriptions. *)
Definition processSubscription (env : Env) (config : Config) (provider : Provider)
    (sponsorWallet : Wallet) (subscription : IdSubscription) : Task unit :=
  template ← or_skip (templates config !! templateIdOf subscription)
               "TemplateId not found in templates";
  logsData ← or_skip (retryGo env (apiCall env (subscriptionId subscription)))
               "Failed to fecth API value";
  apiValue ← or_skip logsData "API value not found. Skipping update...";
  condition ← or_skip (decodeConditions env (Abi.conditions (details subscription)))
                "Failed to decode conditions";
  emit (Called (Some AddressZero) (fst condition) (subscriptionId subscription)) ;;
  (* const [err, [conditionsMet]] = await retryGo(...): the inner pattern is
     applied to the data component, which is null after a failed call *)
  conditionsMet ←
    or_raise (retryGo env (conditionFunction env provider (fst condition)
                             (subscriptionId subscription) apiValue (snd condition)))
             "TypeError: object null is not iterable";
  skip_if (negb conditionsMet) "Conditions not met. Skipping update..." ;;
  skip_if (negb (getGasPrice env provider)) "Failed to fetch gas price. Skipping update..." ;;
  sent ← retryGo_in_task env (fulfillPspBeaconUpdate env provider sponsorWallet subscription);
  match sent with
  | None => warn submitFailed ;; skip
  | Some _ => mret tt
  end.

(** The [async] function run for one sponsor address. *)
Definition sponsorTask (env : Env) (config : Config) (provider : Provider) (currentBlock : Z)
    (group : string * list IdSubscription) : SponsorRun :=
  let sponsor := fst group in
  let sponsorWallet :=
    Wallets.deriveSponsorWallet (airnodeWalletMnemonic config) sponsor "3" in
  match retryGo env (getTransactionCount env provider sponsorWallet currentBlock) with
  | None =>
      {| runProvider := provider; runSponsor := sponsor; runWallet := sponsorWallet;
         runCount := None; runError := None;
         runState := {| nonce := 0;
                        trace := [Warned "Failed to fetch the sponsor wallet transaction count"] |} |}
  | Some count =>
      let '(error, final) :=
        for_of (processSubscription env config provider sponsorWallet)
               (snd group) {| nonce := count; trace := [] |} in
      {| runProvider := provider; runSponsor := sponsor; runWallet := sponsorWallet;
         runCount := Some count; runError := error; runState := final |}
  end.

Definition providerTask (env : Env) (config : Config) (provider : Provider) : ProviderRun :=
  match retryGo env (getBlockNumber env provider) with
  | None => (None, [])
  | Some currentBlock =>
      match protoSubscriptions config with
      | Throw e => (Some e, [])
      | Ok found =>
          (None, map (sponsorTask env config provider currentBlock) (groupBy sponsorOf found))
      end
  end.

(** [beaconUpdate]: the test before the fan-out is [isEmpty(chains)]. *)
Definition beaconUpdate (env : Env) (config : Config) : Invocation :=
  let evm := evmChains (chains config) in
  match chains config with
  | [] => {| response := Throw evmError; runs := [] |}
  | _ =>
      settle "PSP beacon update execution has finished"
        (flat_map (fun chain => map (providerTask env config) (providersOf chain)) evm)
  end.

End PspMonolith.

(** ** The first phased PSP handler: [initializeState] with the packed hash *)

Module PspPhasedV1.
Import Subscriptions.

(** The [forEach] over [triggers['proto-psp']] of [initializeState]. *)
Definition enabledSubscriptions (protoPsp : list string)
    (subscriptions : gmap string Abi.Subscription) : result (list IdSubscription) :=
  reduce (verified Abi.packedSubscriptionId subscriptions) protoPsp [].

End PspPhasedV1.

(** ** [getSponsorWalletAndTransactionCount] *)

Module TransactionCount.
Import World.

Definition pspProtocolId : string := "2".

Definition countFailed : string := "Failed to fetch the sponsor wallet transaction count".

(** With [retryGo]: [[logs, { sponsorWallet, transactionCount }]], or
    [[logs, null]]. *)
Definition getSponsorWalletAndTransactionCount (env : Env) (mnemonic : string)
    (provider : Provider) (currentBlock : Z) (sponsor : string)
    : list event * option (Wallet * Z) :=
  let sponsorWallet := Wallets.deriveSponsorWallet mnemonic sponsor pspProtocolId in
  match retryGo env (getTransactionCount env provider sponsorWallet currentBlock) with
  | None => ([Warned countFailed], None)
  | Some transactionCount => ([], Some (sponsorWallet, transactionCount))
  end.

(** The version on [go] with a timeout and no retry, deriving the wallet
    with [node.evm.deriveSponsorWalletFromMnemonic(..., '2')]. *)
Definition getSponsorWalletAndTransactionCount_go (env : Env) (mnemonic : string)
    (provider : Provider) (currentBlock : Z) (sponsor : string)
    : list event * option (Wallet * Z) :=
  let sponsorWallet := Wallets.deriveSponsorWallet mnemonic sponsor "2" in
  match getTransactionCount env provider sponsorWallet currentBlock 0 with
  | Rejected => ([Warned countFailed], None)
  | Resolved transactionCount => ([], Some (sponsorWallet, transactionCount))
  end.

End TransactionCount.

(** ** The phased PSP handler: [initializeState], [executeApiCalls],
    [initializeProviders], [submitTransactions] *)

Module PspPhased.
Import World Task Chains Subscriptions.

Record Config : Type := {
  chains : list ChainConfig;
  airnodeWalletMnemonic : string;
  protoPsp : list string;
  subscriptions : gmap string Abi.Subscription;
  templates : gmap string Abi.Template;
  endpoints : gmap string Abi.Endpoint
}.

Record GroupedSubscriptions : Type := {
  groupSubscriptions : list IdSubscription;
  (** [{ ...template, id: templateId }] *)
  groupTemplateId : string;
  groupTemplate : Abi.Template;
  (** [{ ...endpoint, id: template.endpointId }] *)
  groupEndpoint : Abi.Endpoint
}.

Record ProviderState : Type := {
  stateChainId : string;
  stateProvider : Provider;
  currentBlock : Z
}.

Record State : Type := {
  config : Config;
  groupedSubscriptions : list GroupedSubscriptions;
  apiValuesBySubscriptionId : gmap string Z;
  providerStates : list ProviderState;
  (** what [utils.logger] was given at warning level so far *)
  logged : list event
}.

(** The first [reduce] of [initializeState]: the id is checked against
    [keccak256(defaultAbiCoder.encode(...))] of the nine fields. *)
Definition enabledSubscriptions (cfg : Config) : result (list IdSubscription) :=
  reduce (verified Abi.abiSubscriptionId (subscriptions cfg)) (protoPsp cfg) [].

(** The second [reduce]: one group per template id whose template and
    endpoint are found and carry their derived ids. *)
Definition groupOf (cfg : Config) (acc : list GroupedSubscriptions)
    (group : string * list IdSubscription) : result (list GroupedSubscriptions) :=
  let templateId := fst group in
  match templates cfg !! templateId with
  | None => Ok acc
  | Some template =>
      expectedTemplateId ←
        Abi.solidityKeccak256 (Abi.endpointId template) (Abi.templateParameters template);
      if negb (String.eqb expectedTemplateId templateId) then Ok acc
      else
        match endpoints cfg !! Abi.endpointId template with
        | None => Ok acc
        | Some endpoint =>
            if negb (String.eqb (Abi.endpointIdOf endpoint) (Abi.endpointId template))
            then Ok acc
            else Ok (acc ++ [{| groupSubscriptions := snd group;
                                groupTemplateId := templateId;
                                groupTemplate := template;
                                groupEndpoint := endpoint |}])
        end
  end.

Definition initializeState (cfg : Config) : result State :=
  enabled ← enabledSubscriptions cfg;
  groups ← reduce (groupOf cfg) (groupBy templateIdOf enabled) [];
  mret {| config := cfg;
          groupedSubscriptions := groups;
          apiValuesBySubscriptionId := ∅;
          providerStates := [];
          logged := [] |}.

(** The closure given to [go] for one group.  The airnode address is read
    from the subscription found by
    [s.templateId === Object.keys(template)[0]]; when there is none, the
    property access throws inside the closure. *)
Definition callApiClosure (env : Env) (group : GroupedSubscriptions) (attempt : nat)
    : reply (option Z) :=
  match List.find (fun s => String.eqb (templateIdOf s) (Abi.firstKey (groupTemplate group)))
                  (groupSubscriptions group) with
  | None => Rejected
  | Some _ => apiCall env (groupTemplateId group) attempt
  end.

(** [go(fn, { timeoutMs: TIMEOUT_MS, retries: 1 })] *)
Definition go_retries_1 {A} (f : nat -> reply A) : option A := attempts_from 1 0 f.

Definition apiValueFailed : string := "Failed to fetch API value".

(** [responses.reduce(...)] of [executeApiCalls]: the values for one
    response, added to the accumulator and its log. *)
Definition collectResponse (acc : gmap string Z * list event)
    (entry : GroupedSubscriptions * option (option Z)) : gmap string Z * list event :=
  match snd entry with
  | None => (fst acc, snd acc ++ [Warned apiValueFailed])
  | Some None => (fst acc, snd acc ++ [Warned "Failed to fetch API value. Skipping update..."])
  | Some (Some apiValue) =>
      (fold_left (fun values s => <[subscriptionId s := apiValue]> values)
                 (groupSubscriptions (fst entry)) (fst acc),
       snd acc)
  end.

Definition executeApiCalls (env : Env) (state : State) : result State :=
  (* abi.decode(template.templateParameters) runs in the map callback,
     outside go *)
  _ ← reduce (fun (_ : unit) group =>
                match abiDecodeParameters env (Abi.templateParameters (groupTemplate group)) with
                | Some _ => Ok tt
                | None => Throw "abi.decode: invalid parameters"
                end)
             (groupedSubscriptions state) tt;
  let responses :=
    map (fun group => (group, go_retries_1 (callApiClosure env group)))
        (groupedSubscriptions state) in
  let '(values, log) := fold_left collectResponse responses (∅, logged state) in
  mret {| config := config state;
          groupedSubscriptions := groupedSubscriptions state;
          apiValuesBySubscriptionId := values;
          providerStates := providerStates state;
          logged := log |}.

(** Modelled from the spec: [initializeProvider] of [evm] is not among the
    sources.  "fetch [currentBlock] with retry; fetch a gas target.  If
    either fails the provider is dropped (logged error) but other providers
    proceed." *)
Definition initializeProvider (env : Env) (provider : Provider) : option ProviderState :=
  match retryGo env (getBlockNumber env provider) with
  | Some block =>
      if getGasPrice env provider
      then Some {| stateChainId := providerChainId provider;
                   stateProvider := provider;
                   currentBlock := block |}
      else None
  | None => None
  end.

Definition initializeProviders (env : Env) (state : State) : result State :=
  match evmChains (chains (config state)) with
  | [] => Throw "One or more evm compatible chains must be defined in the provided config"
  | evm =>
      let attempts :=
        flat_map (fun chain => map (fun p => (p, initializeProvider env p)) (providersOf chain))
                 evm in
      Ok {| config := config state;
            groupedSubscriptions := groupedSubscriptions state;
            apiValuesBySubscriptionId := apiValuesBySubscriptionId state;
            providerStates := omap snd attempts;
            logged := logged state
                      ++ omap (fun a => match snd a with
                                        | None => Some (Warned "Failed to initialize provider")
                                        | Some _ => None
                                        end) attempts |}
  end.

Record CheckedSubscription : Type := {
  checked : IdSubscription;
  apiValue : Z
}.

Record NoncedSubscription : Type := {
  nonced : CheckedSubscription;
  assignedNonce : Z
}.

(** Modelled from the spec: [checkSubscriptionCondition] of [evm] is not
    among the sources.  "Decode [subscription.conditions] ...  Invoke as a
    read-only call from the zero-address signer.  Result: boolean.  A failed
    call or [false] drops the subscription from this invocation." *)
Definition checkSubscriptionCondition (env : Env) (provider : Provider)
    (subscription : IdSubscription) (value : Z) : list event * bool :=
  match decodeConditions env (Abi.conditions (details subscription)) with
  | None => ([Warned "Failed to decode conditions"], false)
  | Some condition =>
      let call := Called (Some AddressZero) (fst condition) (subscriptionId subscription) in
      match retryGo env (conditionFunction env provider (fst condition)
                           (subscriptionId subscription) value (snd condition)) with
      | None => ([call; Warned "Failed to check conditions"], false)
      | Some false => ([call; Warned "Conditions not met. Skipping update..."], false)
      | Some true => ([call], true)
      end
  end.

(** [checkSubscriptionsConditions]: the subscriptions whose condition
    holds, each with its API value, and the log. *)
Definition checkSubscriptionsConditions (env : Env) (provider : Provider)
    (subs : list IdSubscription) (values : gmap string Z)
    : list CheckedSubscription * list event :=
  fold_left
    (fun acc subscription =>
       match values !! subscriptionId subscription with
       | None => acc
       | Some value =>
           let '(log, isValid) := checkSubscriptionCondition env provider subscription value in
           (if isValid
            then fst acc ++ [{| checked := subscription; apiValue := value |}]
            else fst acc,
            snd acc ++ log)
       end)
    subs ([], []).

Record SponsorWalletWithSubscriptions : Type := {
  walletSponsor : string;
  sponsorWallet : Wallet;
  transactionCount : Z;
  walletSubscriptions : list NoncedSubscription
}.

(** [subscriptions.map((subscription, idx) => ({ ...subscription,
    nonce: data.transactionCount + idx }))] *)
Definition assignNonces (count : Z) (subs : list CheckedSubscription) : list NoncedSubscription :=
  imap (fun idx subscription =>
          {| nonced := subscription; assignedNonce := count + Z.of_nat idx |}) subs.

(** [groupSubscriptionsBySponsorWallet]: a sponsor whose wallet or
    transaction count could not be fetched is left out, with a warning. *)
Definition groupSubscriptionsBySponsorWallet (env : Env) (mnemonic : string)
    (provider : Provider) (block : Z)
    (subscriptionsBySponsor : list (string * list CheckedSubscription))
    : list SponsorWalletWithSubscriptions * list event :=
  fold_left
    (fun acc group =>
       let '(log, data) :=
         TransactionCount.getSponsorWalletAndTransactionCount env mnemonic provider block
           (fst group) in
       match data with
       | None =>
           (fst acc,
            snd acc ++ log ++ [Warned "Failed to fetch sponsor wallet or transaction count"])
       | Some (wallet, count) =>
           (fst acc ++ [{| walletSponsor := fst group;
                           sponsorWallet := wallet;
                           transactionCount := count;
                           walletSubscriptions := assignNonces count (snd group) |}],
            snd acc ++ log)
       end)
    subscriptionsBySponsor ([], []).

(** Modelled from the spec: [processSponsorWallet] of [evm] is not among
    the sources.  "process subscriptions sequentially in the order nonces
    were assigned ...  Submit [DapiServer.fulfillPspBeaconUpdate(...)]
    signed by the sponsor wallet with [{gasLimit, ...gasTarget, nonce}] ...
    Submission failures log an error but do NOT halt the sponsor's remaining
    subscriptions". *)
Definition processSponsorWallet (env : Env) (provider : Provider) (wallet : Wallet)
    (subs : list NoncedSubscription) : list event :=
  flat_map
    (fun s =>
       let key := subscriptionId (checked (nonced s)) in
       match retryGo env (sendTransaction env provider wallet key (assignedNonce s)) with
       | Some _ => [Sent wallet "fulfillPspBeaconUpdate" key (assignedNonce s) true]
       | None => [Sent wallet "fulfillPspBeaconUpdate" key (assignedNonce s) false;
                  Warned submitFailed]
       end)
    subs.

(** [subscription.chainId === chainId && apiValuesBySubscriptionId[subscription.id]] *)
Definition chainSubscriptions (state : State) (providerState : ProviderState)
    : list IdSubscription :=
  List.filter
    (fun subscription =>
       String.eqb (chainIdOf subscription) (stateChainId providerState)
       && bool_decide (is_Some (apiValuesBySubscriptionId state !! subscriptionId subscription)))
    (flat_map groupSubscriptions (groupedSubscriptions state)).

(** The [async] function [submitTransactions] runs for one provider. *)
Definition submitForProvider (env : Env) (state : State) (providerState : ProviderState)
    : list SponsorRun :=
  let provider := stateProvider providerState in
  let '(validSubscriptions, _) :=
    checkSubscriptionsConditions env provider (chainSubscriptions state providerState)
      (apiValuesBySubscriptionId state) in
  let subscriptionsBySponsor := groupBy (fun s => sponsorOf (checked s)) validSubscriptions in
  let '(subscriptionsBySponsorWallets, _) :=
    groupSubscriptionsBySponsorWallet env (airnodeWalletMnemonic (config state)) provider
      (currentBlock providerState) subscriptionsBySponsor in
  map (fun w =>
         {| runProvider := provider;
            runSponsor := walletSponsor w;
            runWallet := sponsorWallet w;
            runCount := Some (transactionCount w);
            runError := None;
            runState :=
              {| nonce := transactionCount w + Z.of_nat (List.length (walletSubscriptions w));
                 trace := processSponsorWallet env provider (sponsorWallet w)
                            (walletSubscriptions w) |} |})
      subscriptionsBySponsorWallets.

Definition submitTransactions (env : Env) (state : State) : list SponsorRun :=
  flat_map (submitForProvider env state) (providerStates state).

(** [updateBeacon] and the [handler] around it. *)
Definition handler (env : Env) (cfg : Config) : Invocation :=
  match
    state ← initializeState cfg;
    state ← executeApiCalls env state;
    initializeProviders env state
  with
  | Throw e => {| response := Throw e; runs := [] |}
  | Ok state =>
      {| response := Ok "PSP beacon update execution has finished";
         runs := submitTransactions env state |}
  end.

End PspPhased.

(** ** Concrete configurations and worlds *)

Module Scenario.
Import World Task Chains Subscriptions.

Definition mnemonic : string := "test test test test test test test test test test test junk".
Definition airnode : string := "0xf39fd6e51aad88f6f4ce6ab8827279cfffb92266".
Definition sponsorA : string := "0x2479808b1216e998309a727df8a0a98a1130a162".
Definition requesterA : string := "0x5fbdb2315678afecb367f032d93f642f64180aa3".

Definition convertToUSD : Abi.Endpoint :=
  {| Abi.oisTitle := "Currency Converter API"; Abi.endpointName := "convertToUSD" |}.

Definition endpointIdA : string :=
  "0x13dea3311fe0d6b84f4daeab831befbc49e19e6494c41e9e065a09c3c68f43b6".

(** The airnode-abi encoding of [to = USD]. *)
Definition parametersUSD : string :=
  "0x3173000000000000000000000000000000000000000000000000000000000000746f00000000000000000000000000000000000000000000000000000000000055534400000000000000000000000000000000000000000000000000000000".

(** The airnode-abi encoding of [to = EUR]. *)
Definition parametersEUR : string :=
  "0x3173000000000000000000000000000000000000000000000000000000000000746f00000000000000000000000000000000000000000000000000000000000045555200000000000000000000000000000000000000000000000000000000".

(** [solidityKeccak256(['bytes32','bytes'], [endpointIdA, parametersUSD])] *)
Definition templateIdA : string :=
  "0xbf7b5dd963b7f446867754a31b9f032f2633167f5a2c93e100aa92fa832b3354".

Definition templateA : Abi.Template :=
  {| Abi.endpointId := endpointIdA;
     Abi.templateParameters := parametersUSD;
     Abi.firstKey := "endpointId" |}.

Definition subscriptionWith (fulfill : string) : Abi.Subscription :=
  {| Abi.chainId := "31337";
     Abi.airnodeAddress := airnode;
     Abi.templateId := templateIdA;
     Abi.parameters := "0x";
     Abi.conditions := "0x31";
     Abi.relayer := airnode;
     Abi.sponsor := sponsorA;
     Abi.requester := requesterA;
     Abi.fulfillFunctionId := fulfill |}.

Definition ethSubscription : Abi.Subscription := subscriptionWith "0x206b48f4".
Definition btcSubscription : Abi.Subscription := subscriptionWith "0x206b48f5".

(** The two hashes of [ethSubscription] and of [btcSubscription]. *)
Definition ethAbiId : string :=
  "0xdb648de041d686706a4c7f3be5de7640b5eda06dfd3b6c8be7ffa935fa59aa06".
Definition ethPackedId : string :=
  "0x32bbcd18ba4d811ee70a470c505171b7351d20fb654c00d409478cb625dc1a06".
Definition btcAbiId : string :=
  "0x2ec4f616c0c62f508bcbd92a3f03c9d2669a5e490986115baea3290756e18104".
Definition btcPackedId : string :=
  "0xf9d3b17872fd958d8cb1d9fd7b32153c16ff4372140c8a42f0f44ce309530e26".

Definition hardhat : ChainConfig :=
  {| id := "31337"; type := "evm";
     providers := [("local", "http://127.0.0.1:8545")];
     blockHistoryLimit := None |}.

Definition local : Provider :=
  {| providerChainId := "31337"; providerName := "local";
     providerUrl := "http://127.0.0.1:8545" |}.

(** A chain whose [type] is not ['evm']. *)
Definition other : ChainConfig :=
  {| id := "101"; type := "solana";
     providers := [("main", "http://127.0.0.1:8899")];
     blockHistoryLimit := None |}.

(** A world in which the chain answers every read: block 1000, transaction
    count 7, a gas target, beacon value 100, no [UpdatedBeacon] event.  The
    HTTP adapter, the condition function, the [RequestedBeaconUpdate]
    events, the awaiting test and the sending of transactions are given. *)
Definition world
    (api : string -> nat -> reply (option Z))
    (condition : string -> nat -> reply bool)
    (requested : list string)
    (awaiting : string -> bool)
    (send : string -> Z -> nat -> reply unit) : Env :=
  {| retries := 1;
     abiEncodeParameters := fun ps =>
       match ps with
       | [] => Ok parametersUSD
       | p :: _ => if String.eqb (parameterValue p) "EUR" then Ok parametersEUR
                   else Ok parametersUSD
       end;
     abiDecodeParameters := fun _ => Some [];
     getExpectedTemplateId := fun _ endpoint encoded =>
       match Abi.solidityKeccak256 endpoint encoded with
       | Ok t => t
       | Throw _ => ""
       end;
     deriveAirnodeAddress := fun _ _ => airnode;
     decodeConditions := fun _ => Some ("conditionPspBeaconUpdate", "0x");
     getBlockNumber := fun _ _ => Resolved 1000;
     getTransactionCount := fun _ _ _ _ => Resolved 7;
     getGasPrice := fun _ => true;
     readBeacon := fun _ _ _ => Resolved (Some 100%N);
     requestedBeaconUpdates := fun _ _ _ _ _ _ _ => Resolved requested;
     updatedBeacons := fun _ _ _ _ _ => Resolved [];
     requestIsAwaitingFulfillment := fun _ requestId _ => Resolved (awaiting requestId);
     conditionFunction := fun _ _ subscription _ _ attempt => condition subscription attempt;
     apiCall := api;
     sendTransaction := fun _ _ key n attempt => send key n attempt |}.

(** Everything succeeds; the API value is 200. *)
Definition calm : Env :=
  world (fun _ _ => Resolved (Some 200)) (fun _ _ => Resolved true) []
        (fun _ => false) (fun _ _ _ => Resolved tt).

(** The provider rejects every transaction with nonce 7. *)
Definition rejecting7 : Env :=
  world (fun _ _ => Resolved (Some 200)) (fun _ _ => Resolved true) []
        (fun _ => false) (fun _ n _ => if n =? 7 then Rejected else Resolved tt).

(** The provider rejects the first attempt of every transaction. *)
Definition flaky : Env :=
  world (fun _ _ => Resolved (Some 200)) (fun _ _ => Resolved true) []
        (fun _ => false)
        (fun _ _ attempt => match attempt with O => Rejected | S _ => Resolved tt end).

(** The provider rejects every transaction for the ETH subscription. *)
Definition rejectingEth : Env :=
  world (fun _ _ => Resolved (Some 200)) (fun _ _ => Resolved true) []
        (fun _ => false)
        (fun key _ _ => if String.eqb key ethPackedId then Rejected else Resolved tt).




(** *** RRP *)

Definition toUSD : TemplateParameter :=
  {| parameterType := "string32"; parameterName := "to"; parameterValue := "USD" |}.
Definition toEUR : TemplateParameter :=
  {| parameterType := "string32"; parameterName := "to"; parameterValue := "EUR" |}.

(** [solidityKeccak256(['bytes32','bytes'], [endpointIdA, parametersEUR])] *)
Definition templateIdB : string :=
  "0xa518ccb82ca0109bc21603918343ea7f6a2c39ea91fe35807aedd0f41ce926d9".

Definition jobUSD : Rrp.Job :=
  {| Rrp.chainIds := None;
     Rrp.templateId := templateIdA;
     Rrp.templateParameters := [toUSD];
     Rrp.endpointId := endpointIdA;
     Rrp.deviationPercentage := Some (1 # 1)%Q;
     Rrp.keeperSponsor := sponsorA;
     Rrp.requestSponsor := sponsorA |}.

Definition jobEUR : Rrp.Job :=
  {| Rrp.chainIds := Some ["31337"; "5"];
     Rrp.templateId := templateIdB;
     Rrp.templateParameters := [toEUR];
     Rrp.endpointId := endpointIdA;
     Rrp.deviationPercentage := Some (5 # 2)%Q;
     Rrp.keeperSponsor := sponsorA;
     Rrp.requestSponsor := sponsorA |}.

Definition rrpConfig (chains : list ChainConfig) (jobs : list Rrp.Job) : Rrp.Config :=
  {| Rrp.chains := chains;
     Rrp.airnodeWalletMnemonic := mnemonic;
     Rrp.airnodeXpub := None;
     Rrp.airnodeAddress := Some airnode;
     Rrp.rrpBeaconServerKeeperJobs := jobs;
     Rrp.endpoints := {[ endpointIdA := convertToUSD ]} |}.

(** [solidityKeccak256(['bytes32','bytes'], [templateIdA, parametersUSD])] *)
Definition beaconIdUSD : string :=
  "0x7a6e0c0593e3bbcfed4565e26177604ec22e98cdd763c31d53ee34edae8993cb".

(** The HTTP adapter times out on every attempt for the USD beacon. *)
Definition apiDown : Env :=
  world (fun key _ => if String.eqb key beaconIdUSD then Rejected else Resolved (Some 200))
        (fun _ _ => Resolved true) [] (fun _ => false) (fun _ _ _ => Resolved tt).

Definition mainnet : ChainConfig :=
  {| id := "1"; type := "evm";
     providers := [("infura", "https://mainnet.infura.io")];
     blockHistoryLimit := Some 100 |}.

Definition infura : Provider :=
  {| providerChainId := "1"; providerName := "infura";
     providerUrl := "https://mainnet.infura.io" |}.

Definition keeperWallet : Wallet := Wallets.deriveSponsorWallet mnemonic sponsorA "12345".

Definition rrpCache (env : Env) (jobs : list Rrp.Job) : gmap string (option Z) :=
  Rrp.logsAndApiValuesByBeaconId env (rrpConfig [hardhat] jobs) airnode.

Definition fromCount7 : TaskState := {| nonce := 7; trace := [] |}.

(** *** The earlier RRP keeper *)

Definition inlineJob : RrpInline.Job :=
  {| RrpInline.templateId := templateIdA;
     RrpInline.overrideParameters := [];
     RrpInline.templateParameters := [toUSD];
     RrpInline.oisTitle := "Currency Converter API";
     RrpInline.endpointName := "convertToUSD";
     RrpInline.deviationPercentage := Some (1 # 1)%Q;
     RrpInline.keeperSponsor := sponsorA;
     RrpInline.requestSponsor := sponsorA |}.

Definition inlineConfig (chains : list ChainConfig) : RrpInline.Config :=
  {| RrpInline.chains := chains;
     RrpInline.airnodeWalletMnemonic := mnemonic;
     RrpInline.rrpBeaconServerKeeperJobs := [inlineJob; inlineJob];
     RrpInline.ois :=
       [{| RrpInline.title := "Currency Converter API";
           RrpInline.oisEndpoints :=
             [{| RrpInline.name := "convertToUSD"; RrpInline.reservedType := true |}] |}] |}.

(** *** PSP *)

Definition eth : IdSubscription :=
  {| subscriptionId := ethPackedId; details := ethSubscription |}.
Definition btc : IdSubscription :=
  {| subscriptionId := btcPackedId; details := btcSubscription |}.

(** For [psp.ts]: both subscriptions declared under their packed hashes. *)
Definition pspConfig (chains : list ChainConfig) : PspMonolith.Config :=
  {| PspMonolith.chains := chains;
     PspMonolith.airnodeWalletMnemonic := mnemonic;
     PspMonolith.protoPsp := [ethPackedId; btcPackedId];
     PspMonolith.subscriptions :=
       <[ethPackedId := ethSubscription]> {[ btcPackedId := btcSubscription ]};
     PspMonolith.templates := {[ templateIdA := templateA ]} |}.

(** For the phased handler: ETH declared under its ABI hash, BTC under an
    id that is not its ABI hash. *)
Definition phasedConfig (chains : list ChainConfig) : PspPhased.Config :=
  {| PspPhased.chains := chains;
     PspPhased.airnodeWalletMnemonic := mnemonic;
     PspPhased.protoPsp := [ethAbiId; btcPackedId];
     PspPhased.subscriptions :=
       <[ethAbiId := ethSubscription]> {[ btcPackedId := btcSubscription ]};
     PspPhased.templates := {[ templateIdA := templateA ]};
     PspPhased.endpoints := {[ endpointIdA := convertToUSD ]} |}.

(** The condition call for the ETH subscription fails on every attempt. *)
Definition conditionDown : Env :=
  world (fun _ _ => Resolved (Some 200))
        (fun subscription _ =>
           if String.eqb subscription ethPackedId then Rejected else Resolved true)
        [] (fun _ => false) (fun _ _ _ => Resolved tt).

(** The condition of the ETH subscription does not hold. *)
Definition conditionFalse : Env :=
  world (fun _ _ => Resolved (Some 200))
        (fun subscription _ => Resolved (negb (String.eqb subscription ethPackedId)))
        [] (fun _ => false) (fun _ _ _ => Resolved tt).

Definition pspWallet : Wallet := Wallets.deriveSponsorWallet mnemonic sponsorA "3".

End Scenario.

(** ** Further configurations and states *)

Module Cases.
Import World Task Chains Subscriptions Scenario.





(** The phased handler past its API phase: the ETH subscription, in the
    group of its template, with API value 200, and the local provider. *)
Definition ethAbi : IdSubscription :=
  {| subscriptionId := ethAbiId; details := ethSubscription |}.

Definition ethGroup : PspPhased.GroupedSubscriptions :=
  {| PspPhased.groupSubscriptions := [ethAbi];
     PspPhased.groupTemplateId := templateIdA;
     PspPhased.groupTemplate := templateA;
     PspPhased.groupEndpoint := convertToUSD |}.

Definition localState : PspPhased.ProviderState :=
  {| PspPhased.stateChainId := "31337";
     PspPhased.stateProvider := local;
     PspPhased.currentBlock := 1000 |}.

Definition pastApiPhase : PspPhased.State :=
  {| PspPhased.config := phasedConfig [hardhat];
     PspPhased.groupedSubscriptions := [ethGroup];
     PspPhased.apiValuesBySubscriptionId := {[ ethAbiId := 200 ]};
     PspPhased.providerStates := [localState];
     PspPhased.logged := [] |}.

Definition phasedWallet : Wallet := Wallets.deriveSponsorWallet mnemonic sponsorA "2".

(** What [submitTransactions] does for sponsor A under the local provider
    in the calm world. *)
Definition ethRun : SponsorRun :=
  {| runProvider := local;
     runSponsor := sponsorA;
     runWallet := phasedWallet;
     runCount := Some 7;
     runError := None;
     runState := {| nonce := 8;
                    trace := [Sent phasedWallet "fulfillPspBeaconUpdate" ethAbiId 7 true] |} |}.

(** The calm world with a template id oracle that answers [templateIdA]
    whatever it is asked. *)
Definition agreeing : Env :=
  {| retries := retries calm;
     abiEncodeParameters := abiEncodeParameters calm;
     abiDecodeParameters := abiDecodeParameters calm;
     getExpectedTemplateId := fun _ _ _ => templateIdA;
     deriveAirnodeAddress := deriveAirnodeAddress calm;
     decodeConditions := decodeConditions calm;
     getBlockNumber := getBlockNumber calm;
     getTransactionCount := getTransactionCount calm;
     getGasPrice := getGasPrice calm;
     readBeacon := readBeacon calm;
     requestedBeaconUpdates := requestedBeaconUpdates calm;
     updatedBeacons := updatedBeacons calm;
     requestIsAwaitingFulfillment := requestIsAwaitingFulfillment calm;
     conditionFunction := conditionFunction calm;
     apiCall := apiCall calm;
     sendTransaction := sendTransaction calm |}.

(** The earlier keeper's configuration with its job and no OIS. *)
Definition withoutOis : RrpInline.Config :=
  {| RrpInline.chains := [hardhat];
     RrpInline.airnodeWalletMnemonic := mnemonic;
     RrpInline.rrpBeaconServerKeeperJobs := [inlineJob];
     RrpInline.ois := [] |}.

End Cases.

(** * Facts *)

(** ** Test vectors

    Keccak-256 of the empty string and of ["abc"], and the endpoint
    identifier published for the Currency Converter example. *)

Module KeccakVectors.
Import Hex Keccak.

Definition ascii_bytes (s : string) : bytes :=
  map (fun a => byte_of_N (N_of_ascii a)) (list_ascii_of_string s).

Example keccak256_empty :
  keccak256 [] = "0xc5d2460186f7233c927e7db2dcc703c0e500b653ca82273b7bfad8045d85a470".
Proof. vm_compute. reflexivity. Qed.

Example keccak256_abc :
  keccak256 (ascii_bytes "abc")
  = "0x4e03657aea45a94fc7d47ba826c8d667c0d1e6e33a64a036ec44f58fa12d6c45".
Proof. vm_compute. reflexivity. Qed.

End KeccakVectors.

Module AbiVectors.
Import Abi.

(** The endpoint identifier published for the Currency Converter example. *)
Example endpointId_convertToUSD :
  endpointIdOf {| oisTitle := "Currency Converter API"; endpointName := "convertToUSD" |}
  = "0x13dea3311fe0d6b84f4daeab831befbc49e19e6494c41e9e065a09c3c68f43b6".
Proof. vm_compute. reflexivity. Qed.

End AbiVectors.

(** ** [groupBy] keeps every group in input order *)

Section GroupByFacts.
Context {A : Type} (key : A -> string).

Lemma with_key_app k l a :
  with_key key k (l ++ [a]) = with_key key k l ++ (if String.eqb (key a) k then [a] else []).
Proof.
  unfold with_key. rewrite List.filter_app. simpl.
  destruct (String.eqb (key a) k); reflexivity.
Qed.

Lemma group_insert_keys a groups :
  forall k, In k (map fst (group_insert key a groups)) <-> k = key a \/ In k (map fst groups).
Proof.
  induction groups as [|[k0 m] rest IH]; intros k; simpl.
  - intuition congruence.
  - destruct (String.eqb (key a) k0) eqn:E; simpl.
    + apply String.eqb_eq in E. subst k0. intuition congruence.
    + rewrite IH. intuition congruence.
Qed.

Lemma group_insert_In a groups k members :
  List.NoDup (map fst groups) ->
  In (k, members) (group_insert key a groups) ->
  (k = key a /\ members = [a] /\ ~ In k (map fst groups))
  \/ (k = key a /\ exists old, In (k, old) groups /\ members = old ++ [a])
  \/ (k <> key a /\ In (k, members) groups).
Proof.
  induction groups as [|[k0 m] rest IH]; simpl; intros ND H.
  - destruct H as [H|[]]. inversion H; subst. left. auto.
  - inversion ND as [|? ? Hnotin ND']; subst.
    destruct (String.eqb (key a) k0) eqn:E.
    + apply String.eqb_eq in E. subst k0.
      destruct H as [H|H].
      * inversion H; subst. right. left. split; [reflexivity|]. exists m. auto.
      * right. right. split; [|auto].
        intros ->. apply Hnotin. apply (in_map fst) in H. exact H.
    + apply String.eqb_neq in E.
      destruct H as [H|H].
      * inversion H; subst. right. right. split; [congruence|auto].
      * destruct (IH ND' H) as [(-> & -> & Hn)|[(-> & old & Hold & ->)|(Hne & Hin)]].
        -- left. repeat split; auto. simpl. intros [Hk|Hk]; [congruence|auto].
        -- right. left. split; [reflexivity|]. exists old. auto.
        -- right. right. auto.
Qed.

Lemma group_insert_NoDup a groups :
  List.NoDup (map fst groups) -> List.NoDup (map fst (group_insert key a groups)).
Proof.
  induction groups as [|[k0 m] rest IH]; simpl; intros ND.
  - constructor; [intros []|constructor].
  - inversion ND as [|? ? Hnotin ND']; subst.
    destruct (String.eqb (key a) k0) eqn:E; simpl.
    + constructor; assumption.
    + apply String.eqb_neq in E. constructor; [|auto].
      rewrite group_insert_keys. intros [->|H]; [congruence|auto].
Qed.

Lemma group_insert_grouped l a groups :
  grouped key l groups -> grouped key (l ++ [a]) (group_insert key a groups).
Proof.
  intros (ND & Hmem & Hall). split; [|split].
  - apply group_insert_NoDup, ND.
  - intros k members H. rewrite with_key_app.
    destruct (group_insert_In _ _ _ _ ND H)
      as [(-> & -> & Hn)|[(-> & old & Hold & ->)|(Hne & Hin)]].
    + rewrite String.eqb_refl. split; [|discriminate].
      assert (with_key key (key a) l = []) as ->; [|reflexivity].
      unfold with_key. destruct (List.filter _ l) as [|b r] eqn:F; [reflexivity|].
      exfalso. assert (In b (b :: r)) as Hb by (left; reflexivity).
      rewrite <- F in Hb. apply List.filter_In in Hb. destruct Hb as [Hb Hk].
      apply String.eqb_eq in Hk. apply Hn. rewrite <- Hk. apply Hall, Hb.
    + rewrite String.eqb_refl. destruct (Hmem _ _ Hold) as [-> _].
      split; [reflexivity|]. intros E. apply app_eq_nil in E. destruct E; discriminate.
    + destruct (Hmem _ _ Hin) as [-> Hne']. split; [|exact Hne'].
      destruct (String.eqb (key a) k) eqn:E.
      * apply String.eqb_eq in E. congruence.
      * rewrite app_nil_r. reflexivity.
  - intros b Hb. rewrite group_insert_keys. apply in_app_or in Hb.
    destruct Hb as [Hb|[<-|[]]]; auto.
Qed.

Lemma fold_group_insert_grouped l : forall l0 groups,
  grouped key l0 groups ->
  grouped key (l0 ++ l) (fold_left (fun g a => group_insert key a g) l groups).
Proof.
  induction l as [|a l IH]; intros l0 groups H; simpl.
  - rewrite app_nil_r. exact H.
  - replace (l0 ++ a :: l) with ((l0 ++ [a]) ++ l) by (rewrite <- app_assoc; reflexivity).
    apply IH, group_insert_grouped, H.
Qed.

Lemma groupBy_grouped l : grouped key l (groupBy key l).
Proof.
  apply (fold_group_insert_grouped l [] []).
  split; [constructor|split]; simpl; intros; contradiction.
Qed.

Lemma groupBy_members l k members :
  In (k, members) (groupBy key l) -> members = with_key key k l.
Proof. intros H. apply (proj1 (proj2 (groupBy_grouped l))) in H. tauto. Qed.

Lemma groupBy_In l k members a :
  In (k, members) (groupBy key l) -> In a members -> In a l /\ key a = k.
Proof.
  intros H Ha. rewrite (groupBy_members _ _ _ H) in Ha.
  apply List.filter_In in Ha. destruct Ha as [? E].
  apply String.eqb_eq in E. auto.
Qed.

End GroupByFacts.

(** ** Tasks: traces only grow, nonces only count up *)

Module TaskFacts.
Import World Task.




Lemma consecutive_In n k m : In m (consecutive n k) -> n <= m < n + Z.of_nat k.
Proof.
  unfold consecutive. rewrite in_map_iff. intros (i & <- & Hi).
  apply in_seq in Hi. lia.
Qed.





Lemma advances_nonce s s' : advances s s' -> nonce s <= nonce s'.
Proof. intros (e & _ & _ & N). lia. Qed.





End TaskFacts.

(** Case analysis of one iteration: unfold the monad, split on every call
    into the outside world, and read off the final state. *)
Ltac task_unfold :=
  unfold mbind, Task.task_bind, mret, Task.task_ret, Task.or_skip, Task.or_raise, Task.skip_if,
    Task.warn, Task.emit, Task.skip, Task.raise, Task.lift, Task.next_nonce,
    Task.retryGo_in_task in *.

Ltac task_step :=
  match goal with
  | H : context [match ?x with _ => _ end] |- _ =>
      lazymatch x with
      | context [match _ with _ => _ end] => fail
      | _ => destruct x eqn:?
      end
  | H : context [let '(_, _) := ?x in _] |- _ => destruct x eqn:?
  end.

Ltac task_cases H :=
  task_unfold; repeat (task_step; simpl in *; try discriminate);
  inversion H; subst; clear H; simpl in *.



(** ** Every iteration of every handler advances *)

Module Advance.
Import World Task Chains TaskFacts.









Lemma settled message (ps : list ProviderRun) P :
  Forall (fun p => Forall P (snd p)) ps -> Forall P (runs (settle message ps)).
Proof.
  intros H. unfold settle. simpl. induction H as [|p ps Hp _ IH]; simpl.
  - constructor.
  - apply Forall_app. split; assumption.
Qed.

Lemma over_chains {C} (f : C -> list Provider) (task : C -> Provider -> ProviderRun) P chains :
  (forall c p, Forall P (snd (task c p))) ->
  Forall (fun p => Forall P (snd p)) (flat_map (fun c => map (task c) (f c)) chains).
Proof.
  intros H. induction chains as [|c cs IH]; simpl.
  - constructor.
  - apply Forall_app. split; [|exact IH].
    apply Forall_forall. intros x Hx. apply list_elem_of_In, in_map_iff in Hx.
    destruct Hx as (p & <- & _). apply H.
Qed.

End Advance.

(** ** Nonces *)

Module Nonces.
Import World Task Chains TaskFacts Advance.



(** What [groupSubscriptionsBySponsorWallet] builds for a sponsor: the
    wallet derived with protocol id 2, and nonces assigned from the count. *)
Definition assigned (mnemonic : string) (w : PspPhased.SponsorWalletWithSubscriptions) : Prop :=
  PspPhased.sponsorWallet w
  = Wallets.deriveSponsorWallet mnemonic (PspPhased.walletSponsor w) "2"
  /\ exists subs,
       PspPhased.walletSubscriptions w
       = PspPhased.assignNonces (PspPhased.transactionCount w) subs.

Lemma grouped_wallets_assigned env mnemonic provider block groups :
  Forall (assigned mnemonic)
    (fst (PspPhased.groupSubscriptionsBySponsorWallet env mnemonic provider block groups)).
Proof.
  unfold PspPhased.groupSubscriptionsBySponsorWallet.
  assert (G : forall acc : list PspPhased.SponsorWalletWithSubscriptions * list event,
             Forall (assigned mnemonic) (fst acc) ->
             Forall (assigned mnemonic)
               (fst (fold_left
                  (fun acc group =>
                     let '(log, data) :=
                       TransactionCount.getSponsorWalletAndTransactionCount env mnemonic provider
                         block (fst group) in
                     match data with
                     | None =>
                         (fst acc,
                          snd acc ++ log
                            ++ [Warned "Failed to fetch sponsor wallet or transaction count"])
                     | Some (wallet, count) =>
                         (fst acc ++ [{| PspPhased.walletSponsor := fst group;
                                         PspPhased.sponsorWallet := wallet;
                                         PspPhased.transactionCount := count;
                                         PspPhased.walletSubscriptions :=
                                           PspPhased.assignNonces count (snd group) |}],
                          snd acc ++ log)
                     end) groups acc))).
  { induction groups as [|g groups IH]; intros acc Hacc; [exact Hacc|].
    cbn [fold_left]. apply IH.
    unfold TransactionCount.getSponsorWalletAndTransactionCount.
    destruct (retryGo _ _) as [count|]; cbn [fst]; [|exact Hacc].
    apply Forall_app. split; [exact Hacc|].
    constructor; [|constructor]. split; [reflexivity|]. exists (snd g). reflexivity. }
  apply G. constructor.
Qed.

Lemma phased_wallets env state providerState :
  Forall (fun run =>
            runWallet run
            = Wallets.deriveSponsorWallet
                (PspPhased.airnodeWalletMnemonic (PspPhased.config state)) (runSponsor run) "2")
         (PspPhased.submitForProvider env state providerState).
Proof.
  unfold PspPhased.submitForProvider.
  destruct (PspPhased.checkSubscriptionsConditions _ _ _ _) as [valid log1].
  destruct (PspPhased.groupSubscriptionsBySponsorWallet _ _ _ _ _) as [wallets log2] eqn:G.
  pose proof (grouped_wallets_assigned env
                (PspPhased.airnodeWalletMnemonic (PspPhased.config state))
                (PspPhased.stateProvider providerState)
                (PspPhased.currentBlock providerState)
                (groupBy (fun s => Subscriptions.sponsorOf (PspPhased.checked s)) valid)) as N.
  rewrite G in N. cbn [fst] in N.
  apply Forall_forall. intros run Hrun.
  apply list_elem_of_In, in_map_iff in Hrun. destruct Hrun as (w & <- & Hw).
  apply list_elem_of_In in Hw. rewrite Forall_forall in N. destruct (N _ Hw) as [Hwallet _].
  exact Hwallet.
Qed.



End Nonces.

(** ** A failed submission *)

Module Failure.
Import World Task Chains TaskFacts Advance.

Lemma self_app_nil {A} (l evs : list A) : l = l ++ evs -> evs = [].
Proof.
  intros H. rewrite <- (app_nil_r l) in H at 1. apply app_inv_head in H. auto.
Qed.

(** What [retryGo] leaves behind around a closure that takes a fresh nonce
    per attempt: only transactions, and after a failure the first of them
    a rejected one with the nonce the counter had. *)
Lemma attempts_sent env provider wallet method key :
  forall fuel n s r s',
    attempts_in_task fuel n (sendWithNextNonce env provider wallet method key) s = (r, s') ->
    exists evs,
      trace s' = trace s ++ evs
      /\ Forall (fun e => exists m ok, e = Sent wallet method key m ok) evs
      /\ (r = None -> exists rest, evs = Sent wallet method key (nonce s) false :: rest).
Proof.
  induction fuel as [|fuel IH]; intros n s r s' H; cbn [attempts_in_task] in H;
    unfold sendWithNextNonce at 1 in H;
    destruct (sendTransaction env provider wallet key (nonce s) n).
  - inversion H; subst. eexists. split; [reflexivity|]. split; [|discriminate].
    repeat constructor. eauto.
  - inversion H; subst. eexists. split; [reflexivity|]. split; [|eauto].
    repeat constructor. eauto.
  - inversion H; subst. eexists. split; [reflexivity|]. split; [|discriminate].
    repeat constructor. eauto.
  - apply IH in H. destruct H as (evs & T & F & _). cbn [trace] in T.
    exists (Sent wallet method key (nonce s) false :: evs).
    rewrite T, <- app_assoc. split; [reflexivity|]. split; [|eauto].
    constructor; eauto.
Qed.



Ltac new_events T :=
  rewrite <- ?app_assoc in T; cbn [app] in T;
  first [apply self_app_nil in T | apply app_inv_head in T]; subst.







End Failure.

(** ** The deviation threshold *)

Module Threshold.
Import World Task Chains Deviation TaskFacts.

Lemma checked_percentage dp q :
  checkedDeviationPercentage dp = Some q ->
  exists k : Z, timesHundred q = (k # 1)%Q /\ 0 < k /\ (q * 100 == inject_Z k)%Q.
Proof.
  unfold checkedDeviationPercentage. destruct dp as [q0|]; [|discriminate].
  destruct (Qle_bool q0 0) eqn:Pos; [discriminate|].
  destruct (Qle_bool q0 100) eqn:Le; [|discriminate].
  destruct (isInteger (timesHundred q0)) eqn:Int; [|discriminate].
  cbn. intros E. inversion E; subst q0. clear E.
  unfold isInteger, timesHundred in Int.
  rewrite (Qred_complete _ _ (Qred_correct (q * 100))) in Int.
  apply Pos.eqb_eq in Int.
  exists (Qnum (timesHundred q)). unfold timesHundred.
  destruct (Qred (q * 100)) as [k d] eqn:R. cbn in Int. subst d. cbn [Qnum].
  assert (Hq : (q * 100 == k # 1)%Q) by (rewrite <- R; symmetry; apply Qred_correct).
  split; [reflexivity|]. split; [|exact Hq].
  assert (Hpos : (0 < q)%Q).
  { apply Qnot_le_lt. intros Hle. apply Qle_bool_iff in Hle. congruence. }
  assert (H100 : (0 < q * 100)%Q).
  { apply Qmult_lt_0_compat; [exact Hpos|reflexivity]. }
  rewrite Hq in H100. unfold Qlt in H100. cbn in H100. lia.
Qed.



Ltac no_transaction Hin :=
  exfalso; cbn [In] in Hin;
  repeat (destruct Hin as [Hin|Hin]; [discriminate Hin|]); exact Hin.



End Threshold.

(** Two readings of the same call agree. *)
Ltac agree :=
  repeat match goal with
         | H : Ok _ = Ok _ |- _ => inversion H; subst; clear H
         | H : Some _ = Some _ |- _ => inversion H; subst; clear H
         | H : Some _ = None |- _ => discriminate H
         | H : None = Some _ |- _ => discriminate H
         | H : Ok _ = Throw _ |- _ => discriminate H
         | H : Throw _ = Ok _ |- _ => discriminate H
         | H : true = false |- _ => discriminate H
         | H : false = true |- _ => discriminate H
         | H1 : ?x = ?a, H2 : ?x = ?b |- _ =>
             rewrite H1 in H2;
             first [discriminate H2 | inversion H2; subst; clear H2]
         end.

(** ** Requests still awaiting fulfillment *)

Module Pending.
Import World Task Chains Deviation TaskFacts.


End Pending.

(** ** Jobs and chains *)

Module ChainGate.
Import World Task Chains Deviation TaskFacts.

Lemma notForChain_true chain job ids :
  Rrp.chainIds job = Some ids -> ~ In (id chain) ids -> Rrp.notForChain chain job = true.
Proof.
  intros E Hn. unfold Rrp.notForChain. rewrite E.
  destruct (existsb (String.eqb (id chain)) ids) eqn:X; [|reflexivity].
  exfalso. apply existsb_exists in X. destruct X as (x & Hx & Ex).
  apply String.eqb_eq in Ex. subst x. auto.
Qed.

(** C10.  A job that declares [chainIds] is left alone on a chain whose id
    is not in the list: the iteration ends early and the task's state is
    what it was, so no beacon was read, no API value was used and no
    transaction was sent.  A job without [chainIds] gets, on whatever chain,
    as far as the use of its API value. *)
Theorem job_runs_on_its_chains_only :
  (forall env cache chain provider currentBlock w job s r s' ids,
     Rrp.processJob env cache chain provider currentBlock w job s = (r, s') ->
     Rrp.chainIds job = Some ids ->
     ~ In (id chain) ids ->
     s' = s /\ r <> inl tt)
  /\ (forall env cache chain provider currentBlock w job s encoded beaconId,
        Rrp.chainIds job = None ->
        abiEncodeParameters env (Rrp.templateParameters job) = Ok encoded ->
        Abi.solidityKeccak256 (Rrp.templateId job) encoded = Ok beaconId ->
        exists evs,
          trace (snd (Rrp.processJob env cache chain provider currentBlock w job s))
          = trace s ++ ApiValueRead beaconId :: evs).
Proof.
  split.
  - intros env cache chain provider currentBlock w job s r s' ids H E Hn.
    pose proof (notForChain_true _ _ _ E Hn) as G.
    unfold Rrp.processJob in H. task_unfold.
    destruct (abiEncodeParameters _ _); cbn in H.
    + destruct (Abi.solidityKeccak256 _ _); cbn in H.
      * rewrite G in H. cbn in H. inversion H; subst. split; [reflexivity|discriminate].
      * inversion H; subst. split; [reflexivity|discriminate].
    + inversion H; subst. split; [reflexivity|discriminate].
  - intros env cache chain provider currentBlock w job s encoded beaconId E He Hb.
    assert (G : Rrp.notForChain chain job = false) by (unfold Rrp.notForChain; rewrite E; reflexivity).
    destruct (Rrp.processJob env cache chain provider currentBlock w job s) as [r s'] eqn:H.
    unfold Rrp.processJob in H. task_cases H.
    all: agree.
    all: cbn [snd trace]; rewrite <- ?app_assoc; cbn [app]; eexists; reflexivity.
Qed.

End ChainGate.

(** ** Subscription ids *)

Module Identity.
Import Subscriptions.

Lemma verified_keeps derive subscriptions acc declared acc' :
  Forall (derived_by derive subscriptions) acc ->
  verified derive subscriptions acc declared = Ok acc' ->
  Forall (derived_by derive subscriptions) acc'.
Proof.
  intros Hacc. unfold verified.
  destruct (subscriptions !! declared) as [subscription|] eqn:L.
  - unfold mbind, result_bind. destruct (derive subscription) as [expected|e] eqn:D; [|discriminate].
    destruct (String.eqb declared expected) eqn:E; intros H; inversion H; subst; [|exact Hacc].
    apply String.eqb_eq in E. subst expected.
    apply Forall_app. split; [exact Hacc|].
    constructor; [|constructor]. split; assumption.
  - intros H. inversion H; subst. exact Hacc.
Qed.

Lemma reduce_verified derive subscriptions declared :
  forall acc acc',
    Forall (derived_by derive subscriptions) acc ->
    reduce (verified derive subscriptions) declared acc = Ok acc' ->
    Forall (derived_by derive subscriptions) acc'.
Proof.
  induction declared as [|d rest IH]; intros acc acc' Hacc H; cbn [reduce] in H.
  - inversion H; subst. exact Hacc.
  - unfold mbind, result_bind in H.
    destruct (verified derive subscriptions acc d) as [acc1|e] eqn:V; [|discriminate].
    eapply IH; [|exact H]. eapply verified_keeps; eauto.
Qed.

Lemma groupOf_members cfg groups :
  forall acc acc',
    reduce (PspPhased.groupOf cfg) groups acc = Ok acc' ->
    forall g, In g acc' ->
      In g acc \/ In (PspPhased.groupTemplateId g, PspPhased.groupSubscriptions g) groups.
Proof.
  induction groups as [|[k members] rest IH]; intros acc acc' H g Hg; cbn [reduce] in H.
  - inversion H; subst. auto.
  - unfold mbind, result_bind in H.
    destruct (PspPhased.groupOf cfg acc (k, members)) as [acc1|e] eqn:G; [|discriminate].
    destruct (IH _ _ H g Hg) as [Hacc1|Hrest]; [|right; right; exact Hrest].
    unfold PspPhased.groupOf in G. cbn [fst snd] in G.
    destruct (PspPhased.templates cfg !! k) as [template|]; [|inversion G; subst; auto].
    unfold mbind, result_bind in G.
    destruct (Abi.solidityKeccak256 _ _); [|discriminate].
    destruct (negb _); [inversion G; subst; auto|].
    destruct (PspPhased.endpoints cfg !! _) as [endpoint|]; [|inversion G; subst; auto].
    destruct (negb _); inversion G; subst; auto.
    apply in_app_or in Hacc1. destruct Hacc1 as [Hacc|[<-|[]]]; [auto|].
    right. left. reflexivity.
Qed.

Lemma initializeState_groups cfg state :
  PspPhased.initializeState cfg = Ok state ->
  exists enabled,
    PspPhased.enabledSubscriptions cfg = Ok enabled
    /\ forall s, In s (flat_map PspPhased.groupSubscriptions (PspPhased.groupedSubscriptions state)) ->
                 In s enabled.
Proof.
  unfold PspPhased.initializeState, mbind, result_bind, mret, result_ret.
  destruct (PspPhased.enabledSubscriptions cfg) as [enabled|e]; [|discriminate].
  destruct (reduce _ _ _) as [groups|e] eqn:R; [|discriminate].
  intros H. inversion H; subst. cbn [PspPhased.groupedSubscriptions].
  exists enabled. split; [reflexivity|].
  intros s Hs. apply in_flat_map in Hs. destruct Hs as (g & Hg & Hs).
  destruct (groupOf_members _ _ _ _ R g Hg) as [[]|Hin].
  eapply (groupBy_In templateIdOf); eauto.
Qed.

(** C4, as the code has it.  Every subscription that reaches the API
    calls, the condition checks or the submissions is the configuration's
    entry under its id, and that id is the Keccak-256 hash its handler
    derives from the nine fields: of [defaultAbiCoder.encode] in
    [initializeState] of the phased handler, of the packed encoding
    ([solidityKeccak256]) in [beaconUpdate] of [psp.ts] and in the first
    [initializeState].  A declared id that is not the handler's derived hash
    therefore belongs to no subscription that gets through. *)
Theorem admitted_subscriptions_carry_the_derived_id :
  (forall cfg state,
     PspPhased.initializeState cfg = Ok state ->
     Forall (derived_by Abi.abiSubscriptionId (PspPhased.subscriptions cfg))
            (flat_map PspPhased.groupSubscriptions (PspPhased.groupedSubscriptions state)))
  /\ (forall config found,
        PspMonolith.protoSubscriptions config = Ok found ->
        Forall (derived_by Abi.packedSubscriptionId (PspMonolith.subscriptions config)) found)
  /\ (forall protoPsp subscriptions enabled,
        PspPhasedV1.enabledSubscriptions protoPsp subscriptions = Ok enabled ->
        Forall (derived_by Abi.packedSubscriptionId subscriptions) enabled)
  /\ (forall derive subscriptions s declared subscription,
        derived_by derive subscriptions s ->
        subscriptions !! declared = Some subscription ->
        derive subscription <> Ok declared ->
        subscriptionId s <> declared).
Proof.
  split; [|split; [|split]].
  - intros cfg state H. destruct (initializeState_groups _ _ H) as (enabled & E & Hin).
    apply Forall_forall. intros s Hs. apply list_elem_of_In, Hin in Hs.
    pose proof (reduce_verified _ _ _ [] enabled (List.Forall_nil _) E) as F.
    rewrite Forall_forall in F. apply F, list_elem_of_In, Hs.
  - intros config found H. eapply reduce_verified; [|exact H]. constructor.
  - intros protoPsp subscriptions enabled H. eapply reduce_verified; [|exact H]. constructor.
  - intros derive subscriptions s declared subscription [L D] L' Hne E. subst declared.
    rewrite L in L'. inversion L'; subst. contradiction.
Qed.

(** Under [psp.ts] a subscription declared under its packed hash gets
    through, and that id is not the hash of its ABI encoding. *)
Lemma packed_id_is_admitted_by_beaconUpdate :
  PspMonolith.protoSubscriptions (Scenario.pspConfig [Scenario.hardhat])
  = Ok [Scenario.eth; Scenario.btc]
  /\ Abi.abiSubscriptionId (details Scenario.eth) = Ok Scenario.ethAbiId
  /\ Scenario.ethAbiId <> subscriptionId Scenario.eth.
Proof.
  split; [vm_compute; reflexivity|]. split; [vm_compute; reflexivity|].
  vm_compute. discriminate.
Qed.

(** The phased handler on a configuration with one subscription under its
    ABI hash and one under another id: the first gets through, and it
    carries the derived id. *)
Lemma admitted_subscriptions_witness :
  exists state,
    PspPhased.initializeState (Scenario.phasedConfig [Scenario.hardhat]) = Ok state
    /\ map subscriptionId
           (flat_map PspPhased.groupSubscriptions (PspPhased.groupedSubscriptions state))
       = [Scenario.ethAbiId]
    /\ Forall (derived_by Abi.abiSubscriptionId
                 (PspPhased.subscriptions (Scenario.phasedConfig [Scenario.hardhat])))
              (flat_map PspPhased.groupSubscriptions (PspPhased.groupedSubscriptions state)).
Proof.
  destruct (PspPhased.initializeState (Scenario.phasedConfig [Scenario.hardhat]))
    as [state|e] eqn:E.
  - exists state. split; [reflexivity|]. split.
    + revert E. vm_compute. intros E. inversion E. reflexivity.
    + exact (proj1 admitted_subscriptions_carry_the_derived_id _ _ E).
  - exfalso. revert E. vm_compute. discriminate.
Defined.

End Identity.

(** ** The handlers on concrete worlds *)

Module Runs.
Import World Task Chains Scenario.

(** The first iteration of the keeper's loop for sponsor A on the local
    chain, from transaction count 7. *)
Local Abbreviation usdStep env :=
  (Rrp.processJob env (rrpCache env [jobUSD; jobEUR]) hardhat local 1000 keeperWallet jobUSD
     fromCount7).

Lemma grows_from_empty s s' : trace s = [] -> trace s' = trace s ++ trace s'.
Proof. intros ->. reflexivity. Qed.





(** C10, on mainnet: the EUR job lists chains 31337 and 5 and is left
    alone; the USD job lists none and its API value is used. *)
Lemma job_off_its_chains_witness :
  (snd (Rrp.processJob calm (rrpCache calm [jobUSD; jobEUR]) mainnet infura 1000 keeperWallet
          jobEUR fromCount7) = fromCount7
   /\ fst (Rrp.processJob calm (rrpCache calm [jobUSD; jobEUR]) mainnet infura 1000 keeperWallet
             jobEUR fromCount7) <> inl tt)
  /\ exists evs,
       trace (snd (Rrp.processJob calm (rrpCache calm [jobUSD; jobEUR]) mainnet infura 1000
                     keeperWallet jobUSD fromCount7))
       = trace fromCount7 ++ ApiValueRead beaconIdUSD :: evs.
Proof.
  assert (Hn : ~ In (id mainnet) ["31337"; "5"]).
  { vm_compute. intros [H|[H|[]]]; discriminate H. }
  assert (He : abiEncodeParameters calm (Rrp.templateParameters jobUSD) = Ok parametersUSD)
    by (vm_compute; reflexivity).
  assert (Hb : Abi.solidityKeccak256 (Rrp.templateId jobUSD) parametersUSD = Ok beaconIdUSD)
    by (vm_compute; reflexivity).
  split.
  - exact (proj1 ChainGate.job_runs_on_its_chains_only
             calm (rrpCache calm [jobUSD; jobEUR]) mainnet infura 1000 keeperWallet jobEUR
             fromCount7
             (fst (Rrp.processJob calm (rrpCache calm [jobUSD; jobEUR]) mainnet infura 1000
                     keeperWallet jobEUR fromCount7))
             (snd (Rrp.processJob calm (rrpCache calm [jobUSD; jobEUR]) mainnet infura 1000
                     keeperWallet jobEUR fromCount7))
             ["31337"; "5"] (surjective_pairing _) eq_refl Hn).
  - exact (proj2 ChainGate.job_runs_on_its_chains_only
             calm (rrpCache calm [jobUSD; jobEUR]) mainnet infura 1000 keeperWallet jobUSD
             fromCount7 parametersUSD beaconIdUSD eq_refl He Hb).
Defined.

(** C5: in [psp.ts] a condition call that fails ends the sponsor's task
    with an exception.  The ETH subscription's call is rejected on every
    attempt; the BTC subscription, next in the same sponsor's list, is never
    looked at, and the handler's promise rejects.  Where the condition is
    merely false, the loop goes on and BTC is fulfilled with nonce 7. *)
Theorem failed_condition_call_ends_the_sponsor_task :
  response (PspMonolith.beaconUpdate conditionDown (pspConfig [hardhat]))
  = Throw "TypeError: object null is not iterable"
  /\ map (fun run => (runError run, trace (runState run)))
         (runs (PspMonolith.beaconUpdate conditionDown (pspConfig [hardhat])))
     = [(Some "TypeError: object null is not iterable",
         [Called (Some AddressZero) "conditionPspBeaconUpdate" ethPackedId])]
  /\ response (PspMonolith.beaconUpdate conditionFalse (pspConfig [hardhat]))
     = Ok "PSP beacon update execution has finished"
  /\ map (fun run => trace (runState run))
         (runs (PspMonolith.beaconUpdate conditionFalse (pspConfig [hardhat])))
     = [[Called (Some AddressZero) "conditionPspBeaconUpdate" ethPackedId;
         Warned "Conditions not met. Skipping update...";
         Called (Some AddressZero) "conditionPspBeaconUpdate" btcPackedId;
         Sent pspWallet "fulfillPspBeaconUpdate" btcPackedId 7 true]].
Proof. repeat apply conj; vm_compute; reflexivity. Qed.

(** C6: with one chain, and that chain not of type ['evm'], [beaconUpdate]
    of [psp.ts] and the earlier RRP keeper answer 200 without having looked
    at any provider: their test is on [chains], not on [evmChains].  The RRP
    keeper of [handlers/rrp.ts] and the phased PSP handler throw. *)
Theorem missing_evm_chain_goes_unnoticed :
  PspMonolith.beaconUpdate calm (pspConfig [other])
  = {| response := Ok "PSP beacon update execution has finished"; runs := [] |}
  /\ RrpInline.handler calm (inlineConfig [other])
     = {| response := Ok "Airkeeper invocation has finished"; runs := [] |}
  /\ Rrp.handler calm (rrpConfig [other] [jobUSD; jobEUR])
     = {| response := Throw evmError; runs := [] |}
  /\ PspPhased.handler calm (phasedConfig [other])
     = {| response :=
            Throw "One or more evm compatible chains must be defined in the provided config";
          runs := [] |}.
Proof. repeat apply conj; vm_compute; reflexivity. Qed.

(** C8: in [handlers/rrp.ts] a job whose API call fails on every attempt
    leaves no entry in the cache, and the loop's read of
    [logsAndApiValuesByBeaconId[beaconId].apiValue] throws.  With the USD
    call down, the sponsor's task ends on the USD job, the EUR job is never
    processed and the handler's promise rejects; with the API up, both
    transactions are sent. *)
Theorem api_failure_ends_the_keeper_task :
  rrpCache apiDown [jobUSD; jobEUR] !! beaconIdUSD = None
  /\ response (Rrp.handler apiDown (rrpConfig [hardhat] [jobUSD; jobEUR]))
     = Throw "TypeError: Cannot read properties of undefined (reading 'apiValue')"
  /\ map (fun run => trace (runState run))
         (runs (Rrp.handler apiDown (rrpConfig [hardhat] [jobUSD; jobEUR])))
     = [[ApiValueRead beaconIdUSD]]
  /\ response (Rrp.handler calm (rrpConfig [hardhat] [jobUSD; jobEUR]))
     = Ok "Airkeeper invocation has finished"
  /\ map (fun run => sent_nonces (trace (runState run)))
         (runs (Rrp.handler calm (rrpConfig [hardhat] [jobUSD; jobEUR])))
     = [[7; 8]].
Proof. repeat apply conj; vm_compute; reflexivity. Qed.

End Runs.

(** ** Sponsor wallets *)

Module Derivation.
Import World Task Chains TaskFacts.

Lemma initializeState_config cfg state :
  PspPhased.initializeState cfg = Ok state -> PspPhased.config state = cfg.
Proof.
  unfold PspPhased.initializeState, mbind, result_bind, mret, result_ret.
  destruct (PspPhased.enabledSubscriptions cfg); [|discriminate].
  destruct (reduce _ _ _); [|discriminate].
  intros H. inversion H. reflexivity.
Qed.

Lemma executeApiCalls_config env state state' :
  PspPhased.executeApiCalls env state = Ok state' ->
  PspPhased.config state' = PspPhased.config state.
Proof.
  unfold PspPhased.executeApiCalls, mbind, result_bind, mret, result_ret.
  destruct (reduce _ _ _); [|discriminate].
  destruct (fold_left _ _ _). intros H. inversion H. reflexivity.
Qed.

Lemma initializeProviders_config env state state' :
  PspPhased.initializeProviders env state = Ok state' ->
  PspPhased.config state' = PspPhased.config state.
Proof.
  unfold PspPhased.initializeProviders.
  destruct (evmChains _); [discriminate|].
  intros H. inversion H. reflexivity.
Qed.

(** C9, as the code has it.  The wallet that pays for a sponsor's
    subscriptions is the one at the sponsor-wallet path of the mnemonic and
    the sponsor address with the handler's own protocol id: ["2"] in
    [getSponsorWalletAndTransactionCount], hence in the phased PSP handler,
    and ["3"] in [beaconUpdate] of [psp.ts].  Nothing else enters the
    derivation, so two invocations, whatever their world, provider and
    block, derive the same wallet for the same mnemonic and sponsor. *)
Theorem sponsor_wallet_is_derived_from_mnemonic_and_sponsor :
  (forall env mnemonic provider currentBlock sponsor,
     match snd (TransactionCount.getSponsorWalletAndTransactionCount
                  env mnemonic provider currentBlock sponsor) with
     | Some (wallet, _) => wallet = Wallets.deriveSponsorWallet mnemonic sponsor "2"
     | None => True
     end)
  /\ (forall env mnemonic provider currentBlock sponsor,
        match snd (TransactionCount.getSponsorWalletAndTransactionCount_go
                     env mnemonic provider currentBlock sponsor) with
        | Some (wallet, _) => wallet = Wallets.deriveSponsorWallet mnemonic sponsor "2"
        | None => True
        end)
  /\ (forall env cfg,
        Forall (fun run =>
                  runWallet run
                  = Wallets.deriveSponsorWallet (PspPhased.airnodeWalletMnemonic cfg)
                      (runSponsor run) "2")
               (runs (PspPhased.handler env cfg)))
  /\ (forall env config,
        Forall (fun run =>
                  runWallet run
                  = Wallets.deriveSponsorWallet (PspMonolith.airnodeWalletMnemonic config)
                      (runSponsor run) "3")
               (runs (PspMonolith.beaconUpdate env config)))
  /\ (forall env1 env2 mnemonic provider1 provider2 block1 block2 sponsor wallet1 count1
             wallet2 count2,
        snd (TransactionCount.getSponsorWalletAndTransactionCount
               env1 mnemonic provider1 block1 sponsor) = Some (wallet1, count1) ->
        snd (TransactionCount.getSponsorWalletAndTransactionCount
               env2 mnemonic provider2 block2 sponsor) = Some (wallet2, count2) ->
        wallet1 = wallet2).
Proof.
  split; [|split; [|split; [|split]]].
  - intros. unfold TransactionCount.getSponsorWalletAndTransactionCount.
    destruct (retryGo _ _); cbn; auto.
  - intros. unfold TransactionCount.getSponsorWalletAndTransactionCount_go.
    destruct (getTransactionCount _ _ _ _ _); cbn; auto.
  - intros env cfg. unfold PspPhased.handler, mbind, result_bind.
    destruct (PspPhased.initializeState cfg) as [s1|] eqn:E1; [|constructor].
    destruct (PspPhased.executeApiCalls env s1) as [s2|] eqn:E2; [|constructor].
    destruct (PspPhased.initializeProviders env s2) as [s3|] eqn:E3; [|constructor].
    apply initializeState_config in E1. apply executeApiCalls_config in E2.
    apply initializeProviders_config in E3.
    assert (C : PspPhased.config s3 = cfg) by congruence.
    cbn [runs]. unfold PspPhased.submitTransactions.
    induction (PspPhased.providerStates s3) as [|ps rest IH]; [constructor|].
    cbn [flat_map]. apply Forall_app. split; [|exact IH].
    rewrite <- C. apply Nonces.phased_wallets.
  - intros env config. unfold PspMonolith.beaconUpdate.
    destruct (PspMonolith.chains config); [constructor|].
    apply Advance.settled, Advance.over_chains. intros chain p. unfold PspMonolith.providerTask.
    destruct (retryGo _ _); [|constructor].
    destruct (PspMonolith.protoSubscriptions config); [|constructor].
    cbn [snd]. apply Forall_forall. intros run Hrun.
    apply list_elem_of_In, in_map_iff in Hrun. destruct Hrun as (g & <- & _).
    unfold PspMonolith.sponsorTask. destruct (retryGo _ _); [|reflexivity].
    destruct (for_of _ _ _). reflexivity.
  - intros env1 env2 mnemonic provider1 provider2 block1 block2 sponsor wallet1 count1
           wallet2 count2.
    unfold TransactionCount.getSponsorWalletAndTransactionCount.
    destruct (retryGo env1 _); [|discriminate]. destruct (retryGo env2 _); [|discriminate].
    cbn. intros H1 H2. inversion H1. inversion H2. reflexivity.
Qed.

(** C9, against the claim as stated: the wallet [beaconUpdate] of [psp.ts]
    uses for the sponsor is the one of protocol id 3, not of 2. *)
Lemma beaconUpdate_derives_with_protocol_id_3 :
  map (fun run => (runSponsor run, walletPath (runWallet run)))
      (runs (PspMonolith.beaconUpdate Scenario.calm (Scenario.pspConfig [Scenario.hardhat])))
  = [(Scenario.sponsorA,
      "m/44'/60'/0'/3/288399714/1900106516/1114229239/280448193/1201146033/4")]
  /\ Wallets.sponsorWalletPath "2" Scenario.sponsorA
     = "m/44'/60'/0'/2/288399714/1900106516/1114229239/280448193/1201146033/4"
  /\ Wallets.sponsorWalletPath "3" Scenario.sponsorA
     <> Wallets.sponsorWalletPath "2" Scenario.sponsorA.
Proof.
  split; [vm_compute; reflexivity|]. split; [vm_compute; reflexivity|].
  vm_compute. discriminate.
Qed.

(** C9 as amended, in two worlds: the calm one and the one whose provider
    rejects nonce 7 yield the same wallet for the same mnemonic and
    sponsor. *)
Lemma sponsor_wallet_witness :
  exists wallet1 wallet2,
    snd (TransactionCount.getSponsorWalletAndTransactionCount
           Scenario.calm Scenario.mnemonic Scenario.local 1000 Scenario.sponsorA)
    = Some (wallet1, 7)
    /\ snd (TransactionCount.getSponsorWalletAndTransactionCount
              Scenario.rejecting7 Scenario.mnemonic Scenario.infura 2000 Scenario.sponsorA)
       = Some (wallet2, 7)
    /\ wallet1 = wallet2.
Proof.
  exists (Wallets.deriveSponsorWallet Scenario.mnemonic Scenario.sponsorA "2").
  exists (Wallets.deriveSponsorWallet Scenario.mnemonic Scenario.sponsorA "2").
  assert (H1 : snd (TransactionCount.getSponsorWalletAndTransactionCount
                      Scenario.calm Scenario.mnemonic Scenario.local 1000 Scenario.sponsorA)
               = Some (Wallets.deriveSponsorWallet Scenario.mnemonic Scenario.sponsorA "2", 7))
    by reflexivity.
  assert (H2 : snd (TransactionCount.getSponsorWalletAndTransactionCount
                      Scenario.rejecting7 Scenario.mnemonic Scenario.infura 2000
                      Scenario.sponsorA)
               = Some (Wallets.deriveSponsorWallet Scenario.mnemonic Scenario.sponsorA "2", 7))
    by reflexivity.
  split; [exact H1|]. split; [exact H2|].
  exact (proj2 (proj2 (proj2 (proj2 sponsor_wallet_is_derived_from_mnemonic_and_sponsor)))
           Scenario.calm Scenario.rejecting7 Scenario.mnemonic Scenario.local Scenario.infura
           1000 2000 Scenario.sponsorA _ 7 _ 7 H1 H2).
Defined.

End Derivation.

(** * Further properties of the handlers *)

(** ** The request that is looked at *)

Module FirstUnmatched.
Import Deviation.

(** X1.  The request id the keeper asks [requestIsAwaitingFulfillment] about
    is the first [RequestedBeaconUpdate] event, in the order of the query,
    that no [UpdatedBeacon] event matches: everything before it is matched,
    and there is none exactly when every request is matched. *)
Theorem pending_event_is_the_first_unmatched requested updated :
  match pendingRequestedBeaconUpdateEvent requested updated with
  | Some requestId =>
      exists before after,
        requested = before ++ requestId :: after
        /\ ~ In requestId updated
        /\ forall r, In r before -> In r updated
  | None => forall r, In r requested -> In r updated
  end.
Proof.
  unfold pendingRequestedBeaconUpdateEvent.
  induction requested as [|x rest IH]; cbn [List.filter].
  - intros r [].
  - destruct (existsb (String.eqb x) updated) eqn:X; cbn [negb].
    + apply existsb_exists in X. destruct X as (y & Hy & E).
      apply String.eqb_eq in E. subst y.
      destruct (head (List.filter _ rest)) as [requestId|].
      * destruct IH as (before & after & -> & Hn & Hb).
        exists (x :: before), after. split; [reflexivity|]. split; [exact Hn|].
        intros r [<-|Hr]; auto.
      * intros r [<-|Hr]; auto.
    + cbn [head]. exists [], rest. split; [reflexivity|]. split; [|intros r []].
      intros Hin. assert (existsb (String.eqb x) updated = true); [|congruence].
      apply existsb_exists. exists x. split; [exact Hin|apply String.eqb_refl].
Qed.

End FirstUnmatched.

(** ** The accepted percentages *)

Module Percentage.
Import Deviation.




End Percentage.

(** ** One task per sponsor *)

Module Partition.
Import World Task Chains.

Lemma rrp_task_sponsor env config cache chain provider block group :
  runSponsor (Rrp.keeperSponsorTask env config cache chain provider block group) = fst group
  /\ runWallet (Rrp.keeperSponsorTask env config cache chain provider block group)
     = Wallets.deriveSponsorWallet (Rrp.airnodeWalletMnemonic config) (fst group) "12345".
Proof.
  unfold Rrp.keeperSponsorTask. destruct (retryGo _ _); [|split; reflexivity].
  destruct (for_of _ _ _). split; reflexivity.
Qed.

Lemma psp_task_sponsor env config provider block group :
  runSponsor (PspMonolith.sponsorTask env config provider block group) = fst group.
Proof.
  unfold PspMonolith.sponsorTask. destruct (retryGo _ _); [|reflexivity].
  destruct (for_of _ _ _). reflexivity.
Qed.

(** X3.  Under a provider whose block number was fetched, the keeper starts
    one task per distinct [keeperSponsor] of the configured jobs, in the
    order in which the sponsors first occur: no sponsor has two tasks (two
    tasks would draw nonces from the same wallet side by side), every job's
    sponsor has one, and each task signs with the wallet derived from the
    airnode mnemonic and its sponsor under protocol id 12345.  [beaconUpdate]
    of [psp.ts] does the same with the [sponsor] of the subscriptions that
    passed the id check. *)
Theorem one_task_per_sponsor :
  (forall env config cache chain provider block,
     retryGo env (getBlockNumber env provider) = Some block ->
     List.NoDup (map runSponsor (snd (Rrp.providerTask env config cache chain provider)))
     /\ (forall job, In job (Rrp.rrpBeaconServerKeeperJobs config) ->
           In (Rrp.keeperSponsor job)
              (map runSponsor (snd (Rrp.providerTask env config cache chain provider))))
     /\ (forall run, In run (snd (Rrp.providerTask env config cache chain provider)) ->
           runWallet run
           = Wallets.deriveSponsorWallet (Rrp.airnodeWalletMnemonic config) (runSponsor run)
               "12345"))
  /\ (forall env config provider block found,
        retryGo env (getBlockNumber env provider) = Some block ->
        PspMonolith.protoSubscriptions config = Ok found ->
        List.NoDup (map runSponsor (snd (PspMonolith.providerTask env config provider)))
        /\ (forall s, In s found ->
              In (Subscriptions.sponsorOf s)
                 (map runSponsor (snd (PspMonolith.providerTask env config provider))))).
Proof.
  split.
  - intros env config cache chain provider block B. unfold Rrp.providerTask. rewrite B.
    cbn [snd]. rewrite map_map.
    destruct (groupBy_grouped Rrp.keeperSponsor (Rrp.rrpBeaconServerKeeperJobs config))
      as (Hnodup & _ & Hall).
    assert (E : map (fun g => runSponsor
                                (Rrp.keeperSponsorTask env config cache chain provider block g))
                    (groupBy Rrp.keeperSponsor (Rrp.rrpBeaconServerKeeperJobs config))
                = map fst (groupBy Rrp.keeperSponsor (Rrp.rrpBeaconServerKeeperJobs config))).
    { apply map_ext. intros g. apply rrp_task_sponsor. }
    rewrite E. split; [exact Hnodup|]. split; [exact Hall|].
    intros run Hrun. apply in_map_iff in Hrun. destruct Hrun as (g & <- & _).
    destruct (rrp_task_sponsor env config cache chain provider block g) as [-> ->].
    reflexivity.
  - intros env config provider block found B F. unfold PspMonolith.providerTask.
    rewrite B, F. cbn [snd]. rewrite map_map.
    destruct (groupBy_grouped Subscriptions.sponsorOf found) as (Hnodup & _ & Hall).
    assert (E : map (fun g => runSponsor (PspMonolith.sponsorTask env config provider block g))
                    (groupBy Subscriptions.sponsorOf found)
                = map fst (groupBy Subscriptions.sponsorOf found)).
    { apply map_ext. intros g. apply psp_task_sponsor. }
    rewrite E. split; [exact Hnodup|exact Hall].
Qed.

Lemma one_task_per_sponsor_witness :
  List.NoDup (map runSponsor
                (snd (Rrp.providerTask Scenario.calm
                        (Scenario.rrpConfig [Scenario.hardhat] [Scenario.jobUSD; Scenario.jobEUR])
                        ∅ Scenario.hardhat Scenario.local)))
  /\ (forall job,
        In job (Rrp.rrpBeaconServerKeeperJobs
                  (Scenario.rrpConfig [Scenario.hardhat] [Scenario.jobUSD; Scenario.jobEUR])) ->
        In (Rrp.keeperSponsor job)
           (map runSponsor
              (snd (Rrp.providerTask Scenario.calm
                      (Scenario.rrpConfig [Scenario.hardhat] [Scenario.jobUSD; Scenario.jobEUR])
                      ∅ Scenario.hardhat Scenario.local))))
  /\ (forall run,
        In run (snd (Rrp.providerTask Scenario.calm
                       (Scenario.rrpConfig [Scenario.hardhat] [Scenario.jobUSD; Scenario.jobEUR])
                       ∅ Scenario.hardhat Scenario.local)) ->
        runWallet run
        = Wallets.deriveSponsorWallet
            (Rrp.airnodeWalletMnemonic
               (Scenario.rrpConfig [Scenario.hardhat] [Scenario.jobUSD; Scenario.jobEUR]))
            (runSponsor run) "12345").
Proof.
  exact (proj1 one_task_per_sponsor Scenario.calm
           (Scenario.rrpConfig [Scenario.hardhat] [Scenario.jobUSD; Scenario.jobEUR])
           ∅ Scenario.hardhat Scenario.local 1000 eq_refl).
Defined.

End Partition.

(** ** Configurations that stop the handler *)

Module Fatal.
Import World Task Chains Subscriptions.



(** X4.  A configuration without a chain of type ['evm'] stops the keeper of
    [handlers/rrp.ts] and the phased PSP handler with an exception, whatever
    the world answers, and no sponsor task is started. *)
Theorem no_evm_chain_is_fatal :
  (forall env config,
     evmChains (Rrp.chains config) = [] ->
     exists e, Rrp.handler env config = {| response := Throw e; runs := [] |})
  /\ (forall env cfg,
        evmChains (PspPhased.chains cfg) = [] ->
        exists e, PspPhased.handler env cfg = {| response := Throw e; runs := [] |}).
Proof.
  split.
  - intros env config E. unfold Rrp.handler. rewrite E.
    match goal with |- context [if ?b then _ else _] => destruct b end; eauto.
  - intros env cfg E. unfold PspPhased.handler, mbind, result_bind.
    destruct (PspPhased.initializeState cfg) as [s1|e1] eqn:E1; [|eauto].
    destruct (PspPhased.executeApiCalls env s1) as [s2|e2] eqn:E2; [|eauto].
    apply Derivation.initializeState_config in E1.
    apply Derivation.executeApiCalls_config in E2.
    unfold PspPhased.initializeProviders. rewrite E2, E1, E. eauto.
Qed.

Lemma no_evm_chain_witness :
  (exists e, Rrp.handler Scenario.calm (Scenario.rrpConfig [Scenario.other] [])
             = {| response := Throw e; runs := [] |})
  /\ (exists e, PspPhased.handler Scenario.calm (Scenario.phasedConfig [Scenario.other])
                = {| response := Throw e; runs := [] |}).
Proof.
  split.
  - exact (proj1 no_evm_chain_is_fatal Scenario.calm
             (Scenario.rrpConfig [Scenario.other] []) eq_refl).
  - exact (proj2 no_evm_chain_is_fatal Scenario.calm
             (Scenario.phasedConfig [Scenario.other]) eq_refl).
Defined.


End Fatal.

(** ** Who signs *)

Module Signers.
Import World Task Chains TaskFacts Signing.

Lemma for_of_events {J} (body : J -> Task unit) (P : event -> Prop) :
  (forall j s r s', body j s = (r, s') -> Forall P (trace s) -> Forall P (trace s')) ->
  forall items s e s',
    for_of body items s = (e, s') -> Forall P (trace s) -> Forall P (trace s').
Proof.
  intros Hb. induction items as [|j rest IH]; intros s e s' H F; cbn [for_of] in H.
  - inversion H; subst. exact F.
  - destruct (body j s) as [r s1] eqn:B. pose proof (Hb _ _ _ _ B F) as F1.
    destruct r as [[]|[|err]]; [eapply IH; eauto|eapply IH; eauto|].
    inversion H; subst. exact F1.
Qed.

Ltac own_events :=
  repeat first
    [ assumption
    | apply Forall_app; split
    | apply Forall_cons; split
    | apply Forall_nil_2
    | split; reflexivity
    | reflexivity
    | exact I ].

Lemma attempts_own env provider wallet method key fuel n s r s' :
  attempts_in_task fuel n (sendWithNextNonce env provider wallet method key) s = (r, s') ->
  Forall (own_event wallet method) (trace s) -> Forall (own_event wallet method) (trace s').
Proof.
  intros H F. apply Failure.attempts_sent in H. destruct H as (evs & -> & Fe & _).
  apply Forall_app. split; [exact F|].
  eapply Forall_impl; [exact Fe|]. intros e (m & ok & ->). split; reflexivity.
Qed.

Lemma rrp_own env cache chain provider cb w job s r s' :
  Rrp.processJob env cache chain provider cb w job s = (r, s') ->
  Forall (own_event w "requestBeaconUpdate") (trace s) ->
  Forall (own_event w "requestBeaconUpdate") (trace s').
Proof.
  unfold Rrp.processJob. intros H F. task_cases H.
  all: own_events.
Qed.

Lemma inline_own env config chain provider cb w job s r s' :
  RrpInline.processJob env config chain provider cb w job s = (r, s') ->
  Forall (own_event w "requestBeaconUpdate") (trace s) ->
  Forall (own_event w "requestBeaconUpdate") (trace s').
Proof.
  unfold RrpInline.processJob, RrpInline.requestBeaconUpdate. intros H F. task_cases H.
  all: try match goal with
           | Hh : attempts_in_task _ _ _ _ = _ |- _ =>
               apply attempts_own in Hh; [|cbn [trace]; own_events]
           end.
  all: own_events.
Qed.

Lemma psp_own env config provider w sub s r s' :
  PspMonolith.processSubscription env config provider w sub s = (r, s') ->
  Forall (own_event w "fulfillPspBeaconUpdate") (trace s) ->
  Forall (own_event w "fulfillPspBeaconUpdate") (trace s').
Proof.
  unfold PspMonolith.processSubscription, PspMonolith.fulfillPspBeaconUpdate.
  intros H F. task_cases H.
  all: try match goal with
           | Hh : attempts_in_task _ _ _ _ = _ |- _ =>
               apply attempts_own in Hh; [|cbn [trace]; own_events]
           end.
  all: own_events.
Qed.

(** X6.  Whatever the world answers, a sponsor's task hands the provider
    only transactions signed by the task's own sponsor wallet, and only of
    the update method of its keeper ([requestBeaconUpdate] for RRP,
    [fulfillPspBeaconUpdate] for PSP); every read-only call it makes through
    a signer is made through the void signer at the zero address.  The
    airnode wallet never sends a transaction. *)
Theorem tasks_sign_with_their_own_wallet :
  (forall env config,
     Forall (signs_with "requestBeaconUpdate") (runs (Rrp.handler env config)))
  /\ (forall env config,
        Forall (signs_with "requestBeaconUpdate") (runs (RrpInline.handler env config)))
  /\ (forall env config,
        Forall (signs_with "fulfillPspBeaconUpdate") (runs (PspMonolith.beaconUpdate env config))).
Proof.
  split; [|split].
  - intros env config. unfold Rrp.handler.
    match goal with |- context [if ?b then _ else _] => destruct b end; [constructor|].
    destruct (evmChains _) eqn:E; [constructor|]. rewrite <- E.
    apply Advance.settled, Advance.over_chains. intros chain p. unfold Rrp.providerTask.
    destruct (retryGo _ _); [|constructor].
    cbn [snd]. apply Forall_forall. intros run Hrun.
    apply list_elem_of_In, in_map_iff in Hrun. destruct Hrun as (g & <- & _).
    unfold Rrp.keeperSponsorTask, signs_with.
    destruct (retryGo _ _); [|cbn; own_events].
    destruct (for_of _ _ _) as [e final] eqn:L. cbn [runWallet runState].
    eapply for_of_events; [|exact L|constructor].
    intros. eapply rrp_own; eauto.
  - intros env config. unfold RrpInline.handler.
    destruct (RrpInline.chains config); [constructor|].
    apply Advance.settled, Advance.over_chains. intros chain p. unfold RrpInline.providerTask.
    destruct (retryGo _ _); [|constructor].
    cbn [snd]. apply Forall_forall. intros run Hrun.
    apply list_elem_of_In, in_map_iff in Hrun. destruct Hrun as (g & <- & _).
    unfold RrpInline.keeperSponsorTask, signs_with.
    destruct (retryGo _ _); [|cbn; own_events].
    destruct (for_of _ _ _) as [e final] eqn:L. cbn [runWallet runState].
    eapply for_of_events; [|exact L|constructor].
    intros. eapply inline_own; eauto.
  - intros env config. unfold PspMonolith.beaconUpdate.
    destruct (PspMonolith.chains config); [constructor|].
    apply Advance.settled, Advance.over_chains. intros chain p. unfold PspMonolith.providerTask.
    destruct (retryGo _ _); [|constructor].
    destruct (PspMonolith.protoSubscriptions config); [|constructor].
    cbn [snd]. apply Forall_forall. intros run Hrun.
    apply list_elem_of_In, in_map_iff in Hrun. destruct Hrun as (g & <- & _).
    unfold PspMonolith.sponsorTask, signs_with.
    destruct (retryGo _ _); [|cbn; own_events].
    destruct (for_of _ _ _) as [e final] eqn:L. cbn [runWallet runState].
    eapply for_of_events; [|exact L|constructor].
    intros. eapply psp_own; eauto.
Qed.

End Signers.

(** ** How many transactions an iteration sends *)

Module Attempts.
Import World Task Chains TaskFacts.

Lemma attempts_bound env provider wallet method key :
  forall fuel n s r s',
    attempts_in_task fuel n (sendWithNextNonce env provider wallet method key) s = (r, s') ->
    nonce s < nonce s' <= nonce s + 1 + Z.of_nat fuel.
Proof.
  induction fuel as [|fuel IH]; intros n s r s' H; cbn [attempts_in_task] in H;
    unfold sendWithNextNonce at 1 in H;
    destruct (sendTransaction env provider wallet key (nonce s) n).
  - inversion H; subst. cbn. lia.
  - inversion H; subst. cbn. lia.
  - inversion H; subst. cbn. lia.
  - apply IH in H. cbn [nonce] in H. lia.
Qed.

(** X7.  The keeper of [handlers/rrp.ts] takes the nonce once, before the
    retried call ([const nonce = nextNonce++]): an iteration moves the
    counter by at most one, however many attempts the submission takes.
    [psp.ts] and the earlier keeper evaluate [nonce++] inside the retried
    closure: an iteration may move the counter by one per attempt, up to one
    more than the number of retries.  No iteration moves the counter back. *)
Theorem nonces_taken_by_one_iteration :
  (forall env cache chain provider currentBlock w job s r s',
     Rrp.processJob env cache chain provider currentBlock w job s = (r, s') ->
     nonce s <= nonce s' <= nonce s + 1)
  /\ (forall env config provider w sub s r s',
        PspMonolith.processSubscription env config provider w sub s = (r, s') ->
        nonce s <= nonce s' <= nonce s + 1 + Z.of_nat (retries env))
  /\ (forall env config chain provider currentBlock w job s r s',
        RrpInline.processJob env config chain provider currentBlock w job s = (r, s') ->
        nonce s <= nonce s' <= nonce s + 1 + Z.of_nat (retries env)).
Proof.
  split; [|split].
  - intros env cache chain provider currentBlock w job s r s' H.
    unfold Rrp.processJob in H. task_cases H.
    all: lia.
  - intros env config provider w sub s r s' H.
    unfold PspMonolith.processSubscription, PspMonolith.fulfillPspBeaconUpdate in H.
    task_cases H.
    all: try match goal with
             | Hh : attempts_in_task _ _ _ _ = _ |- _ =>
                 apply attempts_bound in Hh; cbn [nonce] in Hh
             end.
    all: lia.
  - intros env config chain provider currentBlock w job s r s' H.
    unfold RrpInline.processJob, RrpInline.requestBeaconUpdate in H.
    task_cases H.
    all: try match goal with
             | Hh : attempts_in_task _ _ _ _ = _ |- _ =>
                 apply attempts_bound in Hh; cbn [nonce] in Hh
             end.
    all: lia.
Qed.

End Attempts.

(** ** The cache of API values *)

Module Cache.
Import World Task Chains Deviation TaskFacts.

Lemma attempts_resolved {A} (f : nat -> reply A) :
  forall fuel n a, attempts_from fuel n f = Some a -> exists k, f k = Resolved a.
Proof.
  induction fuel as [|fuel IH]; intros n a H; cbn [attempts_from] in H;
    destruct (f n) eqn:F; try discriminate; try (inversion H; subst; eauto).
Qed.

(** The beacon id a job's API closure answers with is the one the loop
    derives for the job. *)
Lemma closure_beacon env config address job beaconId data :
  retryGo env (Rrp.apiValueClosure env config address job) = Some (beaconId, data) ->
  exists encoded,
    abiEncodeParameters env (Rrp.templateParameters job) = Ok encoded
    /\ Abi.solidityKeccak256 (Rrp.templateId job) encoded = Ok beaconId.
Proof.
  intros H. apply attempts_resolved in H. destruct H as [k H].
  unfold Rrp.apiValueClosure in H.
  destruct (Rrp.endpoints config !! Rrp.endpointId job); [|discriminate].
  destruct (abiEncodeParameters env (Rrp.templateParameters job)) as [encoded|]; [|discriminate].
  destruct (Abi.solidityKeccak256 (Rrp.templateId job) encoded) as [b|] eqn:B; [|discriminate].
  exists encoded. split; [reflexivity|].
  destruct (negb _); [inversion H; subst; exact B|].
  destruct (negb _); [inversion H; subst; exact B|].
  destruct (apiCall env b k); inversion H; subst; exact B.
Qed.

Lemma cache_keeps env config address beaconId jobs :
  forall acc : gmap string (option Z),
    is_Some (acc !! beaconId) ->
    is_Some (fold_left
               (fun acc job =>
                  match retryGo env (Rrp.apiValueClosure env config address job) with
                  | None => acc
                  | Some (beaconId, data) => <[beaconId := data]> acc
                  end) jobs acc !! beaconId).
Proof.
  induction jobs as [|j rest IH]; intros acc Hacc; [exact Hacc|].
  cbn [fold_left]. apply IH.
  destruct (retryGo env (Rrp.apiValueClosure env config address j)) as [[b d]|]; [|exact Hacc].
  destruct (decide (b = beaconId)) as [->|Hne].
  - rewrite lookup_insert_eq. eauto.
  - rewrite lookup_insert_ne by exact Hne. exact Hacc.
Qed.

Lemma cache_has env config address job beaconId data jobs :
  In job jobs ->
  retryGo env (Rrp.apiValueClosure env config address job) = Some (beaconId, data) ->
  forall acc : gmap string (option Z),
    is_Some (fold_left
               (fun acc job =>
                  match retryGo env (Rrp.apiValueClosure env config address job) with
                  | None => acc
                  | Some (beaconId, data) => <[beaconId := data]> acc
                  end) jobs acc !! beaconId).
Proof.
  intros Hin R. induction jobs as [|j rest IH]; intros acc; [destruct Hin|].
  cbn [fold_left]. destruct Hin as [->|Hin]; [|apply IH; exact Hin].
  rewrite R. apply cache_keeps. rewrite lookup_insert_eq. eauto.
Qed.

Lemma cache_from env config address beaconId data jobs :
  forall acc : gmap string (option Z),
    fold_left
      (fun acc job =>
         match retryGo env (Rrp.apiValueClosure env config address job) with
         | None => acc
         | Some (beaconId, data) => <[beaconId := data]> acc
         end) jobs acc !! beaconId = Some data ->
    acc !! beaconId = Some data
    \/ exists job, In job jobs
                   /\ retryGo env (Rrp.apiValueClosure env config address job)
                      = Some (beaconId, data).
Proof.
  induction jobs as [|j rest IH]; intros acc H; [left; exact H|].
  cbn [fold_left] in H. apply IH in H. destruct H as [H|(job & Hin & R)].
  - destruct (retryGo env (Rrp.apiValueClosure env config address j)) as [[b d]|] eqn:R;
      [|left; exact H].
    destruct (decide (b = beaconId)) as [->|Hne].
    + rewrite lookup_insert_eq in H. inversion H; subst. right. exists j. split; [left|]; auto.
    + rewrite lookup_insert_ne in H by exact Hne. left. exact H.
  - right. exists job. split; [right|]; auto.
Qed.

(** X8.  The cache built in "Read and cache API values" holds an entry for
    a beacon exactly through a job whose retried API closure resolved, and a
    job of the configuration whose closure resolved finds its entry: the
    loop's read of [logsAndApiValuesByBeaconId[beaconId].apiValue] does not
    throw for it, and its iteration ends without an exception whatever the
    chain answers. *)
Theorem cached_job_does_not_throw :
  (forall env config address beaconId data,
     Rrp.logsAndApiValuesByBeaconId env config address !! beaconId = Some data ->
     exists job,
       In job (Rrp.rrpBeaconServerKeeperJobs config)
       /\ retryGo env (Rrp.apiValueClosure env config address job) = Some (beaconId, data))
  /\ (forall env config address job beaconId data,
        In job (Rrp.rrpBeaconServerKeeperJobs config) ->
        retryGo env (Rrp.apiValueClosure env config address job) = Some (beaconId, data) ->
        is_Some (Rrp.logsAndApiValuesByBeaconId env config address !! beaconId))
  /\ (forall env config address chain provider currentBlock w job s beaconId data e,
        In job (Rrp.rrpBeaconServerKeeperJobs config) ->
        retryGo env (Rrp.apiValueClosure env config address job) = Some (beaconId, data) ->
        fst (Rrp.processJob env (Rrp.logsAndApiValuesByBeaconId env config address)
               chain provider currentBlock w job s) <> inr (Raise e)).
Proof.
  split; [|split].
  - intros env config address beaconId data H.
    unfold Rrp.logsAndApiValuesByBeaconId in H. apply cache_from in H.
    destruct H as [H|H]; [|exact H]. rewrite lookup_empty in H. discriminate.
  - intros env config address job beaconId data Hin R.
    unfold Rrp.logsAndApiValuesByBeaconId. eapply cache_has; eauto.
  - intros env config address chain provider currentBlock w job s beaconId data e Hin R.
    pose proof (cache_has env config address job beaconId data _ Hin R ∅) as [entry C].
    fold (Rrp.logsAndApiValuesByBeaconId env config address) in C.
    destruct (closure_beacon _ _ _ _ _ _ R) as (encoded & He & Hb).
    destruct (Rrp.processJob env (Rrp.logsAndApiValuesByBeaconId env config address)
                chain provider currentBlock w job s) as [r s'] eqn:H.
    cbn [fst]. intros ->.
    unfold Rrp.processJob in H. task_cases H.
    all: agree.
Qed.

End Cache.

(** ** When the update is sent *)

Module Sending.
Import World Task Chains Deviation TaskFacts.



End Sending.

(** ** The API phase of the phased PSP handler *)

Module ApiPhase.
Import World Task Chains Subscriptions.








End ApiPhase.

(** ** Conditions *)

Module Conditions.
Import World Task Chains Subscriptions TaskFacts.

Lemma checked_step env provider (values : gmap string Z) subs :
  forall (acc : list PspPhased.CheckedSubscription * list event) c,
    In c (fst (fold_left
                 (fun acc subscription =>
                    match values !! subscriptionId subscription with
                    | None => acc
                    | Some value =>
                        let '(log, isValid) :=
                          PspPhased.checkSubscriptionCondition env provider subscription value in
                        (if isValid
                         then fst acc ++ [{| PspPhased.checked := subscription;
                                             PspPhased.apiValue := value |}]
                         else fst acc,
                         snd acc ++ log)
                    end) subs acc))
    <-> In c (fst acc)
        \/ (In (PspPhased.checked c) subs
            /\ values !! subscriptionId (PspPhased.checked c) = Some (PspPhased.apiValue c)
            /\ snd (PspPhased.checkSubscriptionCondition env provider (PspPhased.checked c)
                      (PspPhased.apiValue c)) = true).
Proof.
  induction subs as [|x rest IH]; intros acc [sub val];
    cbn [fold_left PspPhased.checked PspPhased.apiValue].
  - split; [auto|]. intros [H|(H & _)]; [exact H|destruct H].
  - rewrite IH. clear IH. cbn [PspPhased.checked PspPhased.apiValue].
    destruct (values !! subscriptionId x) as [value|] eqn:V.
    + destruct (PspPhased.checkSubscriptionCondition env provider x value) as [log valid] eqn:K.
      destruct valid; cbn [fst].
      * split.
        -- intros [H|(H & L & T)].
           ++ apply in_app_or in H. destruct H as [H|[E|[]]]; [auto|].
              inversion E; subst. right. split; [left; reflexivity|]. split; [exact V|].
              rewrite K. reflexivity.
           ++ right. cbn [In]. auto.
        -- intros [H|([<-|H] & L & T)].
           ++ left. apply in_or_app. auto.
           ++ left. apply in_or_app. right. left.
              rewrite V in L. inversion L. reflexivity.
           ++ right. auto.
      * split.
        -- intros [H|(H & L & T)]; [auto|]. right. cbn [In]. auto.
        -- intros [H|([<-|H] & L & T)]; [auto| |right; auto].
           exfalso. rewrite V in L. inversion L; subst. rewrite K in T. discriminate.
    + split.
      * intros [H|(H & L & T)]; [auto|]. right. cbn [In]. auto.
      * intros [H|([<-|H] & L & T)]; [auto| |right; auto].
        exfalso. rewrite V in L. discriminate.
Qed.

(** X11.  [checkSubscriptionsConditions] keeps a subscription, with its API
    value, exactly when the subscription has a value and its condition check
    with that value comes back valid; a subscription whose check fails or is
    not valid is dropped alone, the others are kept. *)
Theorem valid_subscriptions_are_kept env provider subs (values : gmap string Z) c :
  In c (fst (PspPhased.checkSubscriptionsConditions env provider subs values))
  <-> In (PspPhased.checked c) subs
      /\ values !! subscriptionId (PspPhased.checked c) = Some (PspPhased.apiValue c)
      /\ snd (PspPhased.checkSubscriptionCondition env provider (PspPhased.checked c)
                (PspPhased.apiValue c)) = true.
Proof.
  unfold PspPhased.checkSubscriptionsConditions. rewrite checked_step. cbn [fst].
  split; [intros [[]|H]; exact H|intros H; right; exact H].
Qed.

(** X12.  In [psp.ts] a transaction is handed to the provider for a
    subscription only after the API answered with a value for it, its
    conditions decoded, the condition call made with that value answered
    true and a gas price was there; the transaction is for that
    subscription's id. *)
Theorem sent_only_after_satisfied_condition
    env config provider w sub s r s' evs wallet m key n ok :
  PspMonolith.processSubscription env config provider w sub s = (r, s') ->
  trace s' = trace s ++ evs ->
  In (Sent wallet m key n ok) evs ->
  key = subscriptionId sub
  /\ exists apiValue condition,
       retryGo env (apiCall env (subscriptionId sub)) = Some (Some apiValue)
       /\ decodeConditions env (Abi.conditions (details sub)) = Some condition
       /\ retryGo env (conditionFunction env provider (fst condition)
                         (subscriptionId sub) apiValue (snd condition)) = Some true
       /\ getGasPrice env provider = true.
Proof.
  intros H T Hin.
  unfold PspMonolith.processSubscription, PspMonolith.fulfillPspBeaconUpdate in H.
  task_cases H.
  all: try (Failure.new_events T; Threshold.no_transaction Hin).
  all: match goal with
       | Hh : attempts_in_task _ _ _ _ = _ |- _ =>
           apply Failure.attempts_sent in Hh; destruct Hh as (sent & Ts & Fs & _);
           cbn [trace] in Ts; cbn [trace] in T; rewrite Ts in T
       end.
  all: Failure.new_events T.
  all: repeat match type of Hin with
              | In _ (_ :: _) => destruct Hin as [Hin|Hin]; [discriminate Hin|]
              | In _ (_ ++ _) => apply in_app_or in Hin; destruct Hin as [Hin|Hin]
              | In _ [] => destruct Hin
              end.
  all: rewrite Forall_forall in Fs; apply list_elem_of_In, Fs in Hin;
       destruct Hin as (n0 & ok0 & E); inversion E; subst.
  all: split; [reflexivity|].
  all: do 2 eexists; repeat split; try eassumption; try reflexivity.
  all: match goal with
       | Hg : negb ?g = false |- ?g = true => destruct g; [reflexivity|discriminate Hg]
       | Hc : negb ?c = false, Hr : ?call = Some ?c |- ?call = Some true =>
           destruct c; [exact Hr|discriminate Hc]
       end.
Qed.

End Conditions.

(** ** Submissions of the phased PSP handler *)

Module Submission.
Import World Task Chains Subscriptions TaskFacts.

Lemma wallets_from_groups env mnemonic provider block groups :
  forall (acc : list PspPhased.SponsorWalletWithSubscriptions * list event) w,
    In w (fst (fold_left
                 (fun acc group =>
                    let '(log, data) :=
                      TransactionCount.getSponsorWalletAndTransactionCount env mnemonic provider
                        block (fst group) in
                    match data with
                    | None =>
                        (fst acc,
                         snd acc ++ log
                           ++ [Warned "Failed to fetch sponsor wallet or transaction count"])
                    | Some (wallet, count) =>
                        (fst acc ++ [{| PspPhased.walletSponsor := fst group;
                                        PspPhased.sponsorWallet := wallet;
                                        PspPhased.transactionCount := count;
                                        PspPhased.walletSubscriptions :=
                                          PspPhased.assignNonces count (snd group) |}],
                         snd acc ++ log)
                    end) groups acc)) ->
    In w (fst acc)
    \/ exists group,
         In group groups
         /\ PspPhased.walletSponsor w = fst group
         /\ PspPhased.walletSubscriptions w
            = PspPhased.assignNonces (PspPhased.transactionCount w) (snd group)
         /\ retryGo env (getTransactionCount env provider (PspPhased.sponsorWallet w) block)
            = Some (PspPhased.transactionCount w).
Proof.
  induction groups as [|g rest IH]; intros acc w H; [left; exact H|].
  cbn [fold_left] in H. apply IH in H. clear IH.
  destruct H as [H|(group & Hg & Hrest)]; [|right; exists group; split; [right|]; auto].
  unfold TransactionCount.getSponsorWalletAndTransactionCount in H.
  destruct (retryGo env _) as [count|] eqn:R; cbn [fst] in H; [|left; exact H].
  apply in_app_or in H. destruct H as [H|[<-|[]]]; [left; exact H|].
  right. exists g. split; [left; reflexivity|]. cbn. auto.
Qed.

Lemma wallets_of env mnemonic provider block groups w :
  In w (fst (PspPhased.groupSubscriptionsBySponsorWallet env mnemonic provider block groups)) ->
  exists group,
    In group groups
    /\ PspPhased.walletSponsor w = fst group
    /\ PspPhased.walletSubscriptions w
       = PspPhased.assignNonces (PspPhased.transactionCount w) (snd group)
    /\ retryGo env (getTransactionCount env provider (PspPhased.sponsorWallet w) block)
       = Some (PspPhased.transactionCount w).
Proof.
  unfold PspPhased.groupSubscriptionsBySponsorWallet. intros H.
  apply wallets_from_groups in H. destruct H as [[]|H]. exact H.
Qed.

Lemma assignNonces_In count subs ns :
  In ns (PspPhased.assignNonces count subs) -> In (PspPhased.nonced ns) subs.
Proof.
  unfold PspPhased.assignNonces. intros H.
  apply list_elem_of_In, elem_of_lookup_imap in H. destruct H as (i & x & -> & L).
  cbn. apply list_elem_of_In. eapply list_elem_of_lookup_2. exact L.
Qed.

Lemma processSponsorWallet_sent env provider w subs wallet m key n ok :
  In (Sent wallet m key n ok) (PspPhased.processSponsorWallet env provider w subs) ->
  wallet = w
  /\ exists ns, In ns subs
                /\ key = subscriptionId (PspPhased.checked (PspPhased.nonced ns))
                /\ n = PspPhased.assignedNonce ns.
Proof.
  unfold PspPhased.processSponsorWallet. intros H.
  apply in_flat_map in H. destruct H as (ns & Hns & H).
  destruct (retryGo env _); cbn [In] in H.
  - destruct H as [H|[]]. inversion H; subst. split; [reflexivity|]. exists ns. auto.
  - destruct H as [H|[H|[]]]; [|discriminate H].
    inversion H; subst. split; [reflexivity|]. exists ns. auto.
Qed.

(** X13.  In [submitTransactions] a provider is handed transactions only for
    subscriptions of its own chain: every transaction of a sponsor's run
    under a provider is for a subscription of the state's groups whose
    [chainId] is the provider's, whose sponsor is the run's, which has an
    API value, and whose condition check with that value was valid. *)
Theorem submissions_stay_on_their_chain env state providerState run wallet m key n ok :
  In run (PspPhased.submitForProvider env state providerState) ->
  In (Sent wallet m key n ok) (trace (runState run)) ->
  exists s v,
    In s (flat_map PspPhased.groupSubscriptions (PspPhased.groupedSubscriptions state))
    /\ subscriptionId s = key
    /\ chainIdOf s = PspPhased.stateChainId providerState
    /\ sponsorOf s = runSponsor run
    /\ PspPhased.apiValuesBySubscriptionId state !! key = Some v
    /\ snd (PspPhased.checkSubscriptionCondition env (PspPhased.stateProvider providerState) s v)
       = true.
Proof.
  unfold PspPhased.submitForProvider. intros Hrun Hsent.
  destruct (PspPhased.checkSubscriptionsConditions _ _ _ _) as [valid log1] eqn:C.
  destruct (PspPhased.groupSubscriptionsBySponsorWallet _ _ _ _ _) as [wallets log2] eqn:G.
  apply in_map_iff in Hrun. destruct Hrun as (w & <- & Hw).
  cbn [runState trace runSponsor] in *.
  apply processSponsorWallet_sent in Hsent. destruct Hsent as (_ & ns & Hns & -> & _).
  assert (W : In w (fst (PspPhased.groupSubscriptionsBySponsorWallet env
                            (PspPhased.airnodeWalletMnemonic (PspPhased.config state))
                            (PspPhased.stateProvider providerState)
                            (PspPhased.currentBlock providerState)
                            (groupBy (fun s => sponsorOf (PspPhased.checked s)) valid)))).
  { rewrite G. exact Hw. }
  apply wallets_of in W. destruct W as (group & Hg & Hsponsor & Hsubs & _).
  rewrite Hsubs in Hns. apply assignNonces_In in Hns.
  destruct group as [k members]. cbn [fst snd] in *.
  destruct (groupBy_In _ _ _ _ _ Hg Hns) as [Hvalid Hkey].
  assert (V : In (PspPhased.nonced ns)
                 (fst (PspPhased.checkSubscriptionsConditions env
                         (PspPhased.stateProvider providerState)
                         (PspPhased.chainSubscriptions state providerState)
                         (PspPhased.apiValuesBySubscriptionId state)))).
  { rewrite C. exact Hvalid. }
  unfold PspPhased.checkSubscriptionsConditions in V.
  apply Conditions.checked_step in V. destruct V as [[]|(Hc & L & T)].
  unfold PspPhased.chainSubscriptions in Hc. apply List.filter_In in Hc.
  destruct Hc as [Hin Hf]. apply andb_true_iff in Hf. destruct Hf as [Hchain _].
  apply String.eqb_eq in Hchain.
  exists (PspPhased.checked (PspPhased.nonced ns)), (PspPhased.apiValue (PspPhased.nonced ns)).
  split; [exact Hin|]. split; [reflexivity|]. split; [exact Hchain|].
  split; [congruence|]. split; [exact L|exact T].
Qed.

End Submission.

(** ** What the handler answers *)

Module Settlement.
Import World Task Chains TaskFacts.







End Settlement.

(** ** A beacon that was never written *)

Module Unset.
Import Deviation.

(** X15.  For a beacon whose value on chain is 0 the divisor is 1, not the
    beacon value: any API value other than 0 is beyond every accepted
    threshold below 100 percent, so the update goes on, and an API value of
    0 leaves the beacon alone. *)
Theorem unset_beacon_is_beyond_every_threshold dp q a :
  checkedDeviationPercentage dp = Some q ->
  (q < 100)%Q ->
  ((delta 0 a =? 0) = true <-> a = 0)
  /\ (a <> 0 -> withinThreshold 0 a q = false).
Proof.
  intros Hq Hlt. split.
  - unfold delta. rewrite Z.eqb_eq. lia.
  - intros Ha.
    destruct (Threshold.checked_percentage _ _ Hq) as (k & Hk & Hkpos & Hq100).
    unfold withinThreshold. apply Z.leb_gt.
    unfold percentageThreshold, deviation, delta, basisPoints. rewrite Hk. cbn [Qnum].
    cbn [Z.eqb].
    assert (K : k < 10000).
    { assert (H : (q * 100 < 100 * 100)%Q).
      { apply Qmult_lt_compat_r; [reflexivity|exact Hlt]. }
      rewrite Hq100 in H. change (100 * 100)%Q with (inject_Z 10000) in H.
      rewrite <- Zlt_Qlt in H. exact H. }
    rewrite Z.quot_1_r.
    assert (T : Z.quot (10 ^ 16 * k) 100 = 10 ^ 14 * k).
    { replace (10 ^ 16 * k) with (10 ^ 14 * k * 100) by (change (10 ^ 16) with (10 ^ 14 * 100); lia).
      apply Z.quot_mul. lia. }
    rewrite T. change (10 ^ 16) with (10 ^ 14 * 100). nia.
Qed.

End Unset.

(** ** Where the tasks run *)

Module Chain.
Import World Task Chains TaskFacts Placement.

Lemma over_evm_chains (task : ChainConfig -> Provider -> ProviderRun) P chains :
  (forall c p, In c (evmChains chains) -> In p (providersOf c) -> Forall P (snd (task c p))) ->
  Forall (fun p => Forall P (snd p))
         (flat_map (fun c => map (task c) (providersOf c)) (evmChains chains)).
Proof.
  intros H. induction (evmChains chains) as [|c cs IH]; cbn [flat_map].
  - constructor.
  - apply Forall_app. split.
    + apply Forall_forall. intros x Hx. apply list_elem_of_In, in_map_iff in Hx.
      destruct Hx as (p & <- & Hp). apply H; [left; reflexivity|exact Hp].
    + apply IH. intros c' p Hc. apply H. right. exact Hc.
Qed.

Lemma evm_member chains c : In c (evmChains chains) -> In c chains /\ type c = "evm".
Proof.
  unfold evmChains. intros H. apply List.filter_In in H. destruct H as [H E].
  apply String.eqb_eq in E. auto.
Qed.

Lemma rrp_provider env config cache chain provider block group :
  runProvider (Rrp.keeperSponsorTask env config cache chain provider block group) = provider.
Proof.
  unfold Rrp.keeperSponsorTask. destruct (retryGo _ _); [|reflexivity].
  destruct (for_of _ _ _). reflexivity.
Qed.

Lemma inline_provider env config chain provider block group :
  runProvider (RrpInline.keeperSponsorTask env config chain provider block group) = provider.
Proof.
  unfold RrpInline.keeperSponsorTask. destruct (retryGo _ _); [|reflexivity].
  destruct (for_of _ _ _). reflexivity.
Qed.

Lemma psp_provider env config provider block group :
  runProvider (PspMonolith.sponsorTask env config provider block group) = provider.
Proof.
  unfold PspMonolith.sponsorTask. destruct (retryGo _ _); [|reflexivity].
  destruct (for_of _ _ _). reflexivity.
Qed.

Ltac placed c Hc Hp B :=
  destruct (evm_member _ _ Hc) as [Hin Ht];
  exists c; split; [exact Hin|]; split; [exact Ht|]; split; [exact Hp|];
  rewrite B; discriminate.

(** X16.  Every sponsor task of an invocation runs under a provider of a
    configured chain whose [type] is ['evm'], and only after that provider's
    block number was fetched: a chain of another type is never sent a
    transaction, also by [beaconUpdate] of [psp.ts] and by the earlier keeper,
    whose emptiness test looks at all chains, and a provider that does not
    answer the block number starts no task. *)
Theorem tasks_run_on_evm_chains_only :
  (forall env config,
     Forall (on_evm_chain env (Rrp.chains config)) (runs (Rrp.handler env config)))
  /\ (forall env config,
        Forall (on_evm_chain env (RrpInline.chains config)) (runs (RrpInline.handler env config)))
  /\ (forall env config,
        Forall (on_evm_chain env (PspMonolith.chains config))
               (runs (PspMonolith.beaconUpdate env config))).
Proof.
  split; [|split].
  - intros env config. unfold Rrp.handler.
    match goal with |- context [if ?b then _ else _] => destruct b end; [constructor|].
    destruct (evmChains _) eqn:E; [constructor|]. rewrite <- E.
    apply Advance.settled, over_evm_chains. intros evm p Hc Hp. unfold Rrp.providerTask.
    destruct (retryGo env (getBlockNumber env p)) as [block|] eqn:B; [|constructor].
    cbn [snd]. apply Forall_forall. intros run Hrun.
    apply list_elem_of_In, in_map_iff in Hrun. destruct Hrun as (g & <- & _).
    unfold on_evm_chain. rewrite rrp_provider. placed evm Hc Hp B.
  - intros env config. unfold RrpInline.handler.
    destruct (RrpInline.chains config) eqn:E; [constructor|]. rewrite <- E.
    apply Advance.settled, over_evm_chains. intros evm p Hc Hp. unfold RrpInline.providerTask.
    destruct (retryGo env (getBlockNumber env p)) as [block|] eqn:B; [|constructor].
    cbn [snd]. apply Forall_forall. intros run Hrun.
    apply list_elem_of_In, in_map_iff in Hrun. destruct Hrun as (g & <- & _).
    unfold on_evm_chain. rewrite inline_provider. placed evm Hc Hp B.
  - intros env config. unfold PspMonolith.beaconUpdate.
    destruct (PspMonolith.chains config) eqn:E; [constructor|]. rewrite <- E.
    apply Advance.settled, over_evm_chains. intros evm p Hc Hp. unfold PspMonolith.providerTask.
    destruct (retryGo env (getBlockNumber env p)) as [block|] eqn:B; [|constructor].
    destruct (PspMonolith.protoSubscriptions config); [|constructor].
    cbn [snd]. apply Forall_forall. intros run Hrun.
    apply list_elem_of_In, in_map_iff in Hrun. destruct Hrun as (g & <- & _).
    unfold on_evm_chain. rewrite psp_provider. placed evm Hc Hp B.
Qed.

End Chain.

(** ** Sponsors whose transaction count is not to be had *)

Module Counts.
Import World Task Chains Subscriptions TaskFacts.



End Counts.

(** ** Subscriptions that get through *)

Module Admission.
Import Subscriptions.





End Admission.

(** ** A job without its OIS *)

Module MissingOis.
Import World Task Chains Deviation TaskFacts.

(** X19.  In the earlier keeper the OIS and the endpoint of a job are looked
    up with [find(...)!] after the beacon was read: for a job that passes
    the checks of its percentage and template id and whose beacon is read,
    but whose [oisTitle] names no OIS of the configuration, the property
    access on [undefined] throws, the iteration ends with the exception and
    the only thing done is the read of the beacon; no nonce is taken. *)
Theorem job_without_ois_ends_the_task
    env config chain provider currentBlock w job s encoded beaconId percentage
    encodedTemplate value :
  abiEncodeParameters env
    (RrpInline.templateParameters job ++ RrpInline.overrideParameters job) = Ok encoded ->
  Abi.solidityKeccak256 (RrpInline.templateId job) encoded = Ok beaconId ->
  checkedDeviationPercentage (RrpInline.deviationPercentage job) = Some percentage ->
  abiEncodeParameters env (RrpInline.templateParameters job) = Ok encodedTemplate ->
  getExpectedTemplateId env
    (deriveAirnodeAddress env (RrpInline.airnodeWalletMnemonic config) None)
    (Abi.endpointIdOf {| Abi.oisTitle := RrpInline.oisTitle job;
                         Abi.endpointName := RrpInline.endpointName job |})
    encodedTemplate = RrpInline.templateId job ->
  retryGo env (readBeacon env provider beaconId) = Some (Some value) ->
  (forall o, In o (RrpInline.ois config) -> RrpInline.title o <> RrpInline.oisTitle job) ->
  RrpInline.processJob env config chain provider currentBlock w job s
  = (inr (Raise "TypeError: Cannot read properties of undefined (reading 'endpoints')"),
     {| nonce := nonce s;
        trace := trace s ++ [Called (Some AddressZero) "readBeacon" beaconId] |}).
Proof.
  intros He Hb Hp Ht Hid Hr Hois.
  assert (F : List.find (fun o => String.eqb (RrpInline.title o) (RrpInline.oisTitle job))
                        (RrpInline.ois config) = None).
  { destruct (List.find _ _) as [o|] eqn:E; [|reflexivity].
    apply List.find_some in E. destruct E as [Hin E]. apply String.eqb_eq in E.
    exfalso. eapply Hois; eauto. }
  unfold RrpInline.processJob. task_unfold.
  rewrite He. cbn. rewrite Hb. cbn. rewrite Hp. cbn. rewrite Ht. cbn.
  rewrite Hid, String.eqb_refl. cbn. rewrite Hr. cbn. rewrite F. reflexivity.
Qed.

End MissingOis.

(** ** The added facts on concrete worlds *)

Module Instances.
Import World Task Chains Subscriptions Scenario Cases.

Lemma beaconIdUSD_derived :
  Abi.solidityKeccak256 templateIdA parametersUSD = Ok beaconIdUSD.
Proof. vm_compute. reflexivity. Qed.


(** [psp.ts] in the world whose provider rejects every first attempt: the
    ETH subscription takes nonces 7 and 8. *)
Lemma nonces_taken_witness :
  nonce (snd (PspMonolith.processSubscription flaky (pspConfig [hardhat]) local pspWallet eth
                fromCount7)) = 9
  /\ nonce fromCount7
     <= nonce (snd (PspMonolith.processSubscription flaky (pspConfig [hardhat]) local pspWallet
                      eth fromCount7))
     <= nonce fromCount7 + 1 + Z.of_nat (retries flaky).
Proof.
  split; [vm_compute; reflexivity|].
  exact (proj1 (proj2 Attempts.nonces_taken_by_one_iteration)
           flaky (pspConfig [hardhat]) local pspWallet eth fromCount7 _ _
           (surjective_pairing _)).
Defined.

(** The USD job in the calm world, through the API phase and the loop. *)
Lemma cached_job_witness :
  is_Some (Rrp.logsAndApiValuesByBeaconId calm (rrpConfig [hardhat] [jobUSD]) airnode
           !! beaconIdUSD)
  /\ fst (Rrp.processJob calm
            (Rrp.logsAndApiValuesByBeaconId calm (rrpConfig [hardhat] [jobUSD]) airnode)
            hardhat local 1000 keeperWallet jobUSD fromCount7)
     <> inr (Raise "TypeError: Cannot read properties of undefined (reading 'apiValue')").
Proof.
  assert (R : retryGo calm (Rrp.apiValueClosure calm (rrpConfig [hardhat] [jobUSD]) airnode jobUSD)
              = Some (beaconIdUSD, Some 200)) by (vm_compute; reflexivity).
  split.
  - exact (proj1 (proj2 Cache.cached_job_does_not_throw)
             calm (rrpConfig [hardhat] [jobUSD]) airnode jobUSD beaconIdUSD (Some 200)
             (or_introl eq_refl) R).
  - exact (proj2 (proj2 Cache.cached_job_does_not_throw)
             calm (rrpConfig [hardhat] [jobUSD]) airnode hardhat local 1000 keeperWallet jobUSD
             fromCount7 beaconIdUSD (Some 200) _ (or_introl eq_refl) R).
Defined.



(** [psp.ts] in the calm world: the ETH subscription is fulfilled. *)
Lemma satisfied_condition_witness :
  ethPackedId = subscriptionId eth
  /\ exists apiValue condition,
       retryGo calm (apiCall calm (subscriptionId eth)) = Some (Some apiValue)
       /\ decodeConditions calm (Abi.conditions (details eth)) = Some condition
       /\ retryGo calm (conditionFunction calm local (fst condition) (subscriptionId eth)
                          apiValue (snd condition)) = Some true
       /\ getGasPrice calm local = true.
Proof.
  assert (Hin : In (Sent pspWallet "fulfillPspBeaconUpdate" ethPackedId 7 true)
                   (trace (snd (PspMonolith.processSubscription calm (pspConfig [hardhat]) local
                                  pspWallet eth fromCount7)))).
  { vm_compute. right. left. reflexivity. }
  exact (Conditions.sent_only_after_satisfied_condition
           calm (pspConfig [hardhat]) local pspWallet eth fromCount7 _ _ _
           pspWallet "fulfillPspBeaconUpdate" ethPackedId 7 true
           (surjective_pairing _) (Runs.grows_from_empty fromCount7 _ eq_refl) Hin).
Defined.

(** The phased handler past the API phase, in the calm world. *)
Lemma submissions_witness :
  exists s v,
    In s (flat_map PspPhased.groupSubscriptions (PspPhased.groupedSubscriptions pastApiPhase))
    /\ subscriptionId s = ethAbiId
    /\ chainIdOf s = PspPhased.stateChainId localState
    /\ sponsorOf s = runSponsor ethRun
    /\ PspPhased.apiValuesBySubscriptionId pastApiPhase !! ethAbiId = Some v
    /\ snd (PspPhased.checkSubscriptionCondition calm (PspPhased.stateProvider localState) s v)
       = true.
Proof.
  assert (Hrun : In ethRun (PspPhased.submitForProvider calm pastApiPhase localState)).
  { vm_compute. left. reflexivity. }
  exact (Submission.submissions_stay_on_their_chain calm pastApiPhase localState ethRun
           phasedWallet "fulfillPspBeaconUpdate" ethAbiId 7 true Hrun (or_introl eq_refl)).
Defined.


(** A beacon at 0, API value 200, threshold one percent. *)
Lemma unset_beacon_witness :
  ((Deviation.delta 0 200 =? 0) = true <-> 200 = 0)
  /\ (200 <> 0 -> Deviation.withinThreshold 0 200 (1 # 1)%Q = false).
Proof.
  apply (Unset.unset_beacon_is_beyond_every_threshold (Some (1 # 1)%Q) (1 # 1)%Q 200);
    reflexivity.
Defined.



(** The earlier keeper's job on a configuration that lists no OIS. *)
Lemma job_without_ois_witness :
  RrpInline.processJob agreeing withoutOis hardhat local 1000 keeperWallet inlineJob fromCount7
  = (inr (Raise "TypeError: Cannot read properties of undefined (reading 'endpoints')"),
     {| nonce := nonce fromCount7;
        trace := trace fromCount7 ++ [Called (Some AddressZero) "readBeacon" beaconIdUSD] |}).
Proof.
  apply (MissingOis.job_without_ois_ends_the_task
           agreeing withoutOis hardhat local 1000 keeperWallet inlineJob fromCount7
           parametersUSD beaconIdUSD (1 # 1)%Q parametersUSD 100%N
           eq_refl beaconIdUSD_derived eq_refl eq_refl eq_refl eq_refl).
  intros o [].
Defined.

End Instances.
